(** * sdkspec/generate.py: the SDK-spec code generator

    A shallow embedding of [src/sdkspec/generate.py] and the properties its
    specification states about it.

    The script reads a YAML document, builds a three-entry render context,
    renders one Jinja2 template against it and writes the text under
    [out/java/].  Python strings are sequences of Unicode code points, the
    render context is a dictionary, and the file system is the state the
    script runs in; exceptions abort the run and keep whatever had been
    written before they were raised. *)

From Stdlib Require Import NArith ZArith Ascii String List Bool Lia.
From stdpp Require Import base option list gmap.
Import ListNotations.

Set Warnings "-register-all".
Local Open Scope N_scope.

(** ** Python strings *)

(** A Python [str] is a sequence of code points. *)
Abbreviation str := (list N) (only parsing).

(** A string literal of the source, read as its code points. *)
Definition ustr (s : string) : str := List.map N_of_ascii (list_ascii_of_string s).
Arguments ustr : simpl never.

Module PyStr.

(** [toupper] on the ASCII range, as [str.upper] applies it to the code
    points below 128. *)
Definition ascii_upper (c : N) : N :=
  if (97 <=? c) && (c <=? 122) then c - 32 else c.

Section Upper.

(** The full uppercase mapping of the Unicode database for the code
    points from 128 on ([_PyUnicode_ToUpperFull]): one code point may
    map to up to three.  The table belongs to the interpreter, not to
    the script, and is taken as a parameter. *)
Variable to_upper_full : N -> list N.

Definition to_upper (c : N) : list N :=
  if c <? 128 then [ascii_upper c] else to_upper_full c.

(** [s.upper()]: every code point is replaced by its uppercase mapping,
    independently of its neighbours. *)
Definition upper (s : str) : str := flat_map to_upper s.

End Upper.

(** [s.startswith(p)]. *)
Fixpoint startswith (p s : str) : bool :=
  match p, s with
  | [], _ => true
  | _ :: _, [] => false
  | a :: p', b :: s' => (a =? b) && startswith p' s'
  end.

(** The scan of [s.replace(old, new)] for a non-empty [old]: left to
    right, an occurrence of [old] at the current position is replaced by
    [new] and skipped over ([skip] counts the code points of the occurrence
    still to pass), so that occurrences never overlap. *)
Fixpoint replace_scan (old new : str) (skip : nat) (s : str) : str :=
  match s with
  | [] => []
  | c :: s' =>
      match skip with
      | S k => replace_scan old new k s'
      | O =>
          if startswith old s
          then new ++ replace_scan old new (Nat.pred (List.length old)) s'
          else c :: replace_scan old new 0 s'
      end
  end.

(** [s.replace(old, new)].  With an empty [old], Python inserts [new]
    before every code point and at the end. *)
Definition replace (old new s : str) : str :=
  match old with
  | [] => new ++ flat_map (fun c => c :: new) s
  | _ :: _ => replace_scan old new 0 s
  end.

End PyStr.

(** ** [java_const] *)

Section JavaConst.

Variable to_upper_full : N -> list N.

(** [return name.upper().replace('-', '_').replace('.', '_')] *)
Definition java_const (name : str) : str :=
  PyStr.replace (ustr ".") (ustr "_")
    (PyStr.replace (ustr "-") (ustr "_")
       (PyStr.upper to_upper_full name)).

End JavaConst.

(** The code points the specification of [java_const] names. *)
Definition hyphen : N := 45.
Definition period : N := 46.
Definition underscore : N := 95.

(** The ASCII classes: the capital letters A to Z, the small letters a to
    z and the digits 0 to 9.  The letters and digits of Unicode beyond them
    are not told apart here; [java_const] treats them by the uppercase table
    alone. *)
Definition is_upper_letter (c : N) : bool := (65 <=? c) && (c <=? 90).
Definition is_lower_letter (c : N) : bool := (97 <=? c) && (c <=? 122).
Definition is_letter (c : N) : bool := is_upper_letter c || is_lower_letter c.
Definition is_digit (c : N) : bool := (48 <=? c) && (c <=? 57).

(** The replacement step as the specification words it: every hyphen and
    every period becomes an underscore, in one pass. *)
Definition underscore_punct (c : N) : N :=
  if (c =? hyphen) || (c =? period) then underscore else c.

(** Two facts of the Unicode database that the properties of [java_const]
    rest on.  No uppercase mapping produces a hyphen or a period, and
    uppercase mappings are stable: what they produce is its own uppercase. *)
Definition upper_no_punct (tbl : N -> list N) : Prop :=
  forall c d, 128 <= c -> In d (tbl c) -> d <> hyphen /\ d <> period.

Definition upper_stable (tbl : N -> list N) : Prop :=
  forall c d, 128 <= c -> In d (tbl c) -> PyStr.to_upper tbl d = [d].

(** The Latin-1 rows of the uppercase table (U+0080 to U+00FF), with the
    identity elsewhere: MICRO SIGN maps to GREEK CAPITAL MU, SHARP S to "SS",
    Y WITH DIAERESIS to U+0178, and the letters U+00E0 to U+00FE (DIVISION
    SIGN apart) move down by 32. *)
Definition latin1_upper (c : N) : list N :=
  if c =? 181 then [924]
  else if c =? 223 then [83; 83]
  else if c =? 255 then [376]
  else if (224 <=? c) && (c <=? 254) && negb (c =? 247) then [c - 32]
  else [c].


(** [latin1_upper] with one row of SpecialCasing more: GREEK SMALL LETTER
    IOTA WITH DIALYTIKA AND TONOS (U+0390) maps to three code points, capital
    iota (U+0399), COMBINING DIAERESIS (U+0308) and COMBINING ACUTE ACCENT
    (U+0301). *)
Definition special_upper (c : N) : list N :=
  if c =? 912 then [921; 776; 769] else latin1_upper c.

(** ** Values, exceptions and results *)

(** The documents [yaml.safe_load] builds: [None], booleans, integers,
    floats (a double, by its 64 bits), strings, [bytes] (for [!!binary]),
    dates and times (a [datetime] object, by its ISO text), lists, tuples
    (the entries of [!!omap] and [!!pairs]), sets (for [!!set]; the order of
    the list means nothing) and dictionaries (insertion-ordered, so an
    association list).  The script never looks inside a document. *)
Inductive value :=
| VNone
| VBool (b : bool)
| VInt (z : Z)
| VFloat (bits : N)
| VStr (s : str)
| VBytes (data : list N)
| VTimestamp (iso : str)
| VList (items : list value)
| VTuple (items : list value)
| VSet (items : list value)
| VDict (items : list (value * value)).

(** The exceptions that can end a run. *)
Inductive exn :=
| FileNotFoundError
| IsADirectoryError
| NotADirectoryError
| FileExistsError
| PermissionError
| YAMLError
| TemplateNotFound
| TemplateSyntaxError
| UndefinedError (name : str)
| AttributeError
| TypeError
| SystemExit (code : Z).

Inductive result (A : Type) :=
| Ok (a : A)
| Raise (e : exn).
Arguments Ok {A} a.
Arguments Raise {A} e.

Definition result_bind {A B} (r : result A) (k : A -> result B) : result B :=
  match r with
  | Ok a => k a
  | Raise e => Raise e
  end.

(** ** The file system and the run state *)

(** A path is the list of its parts as [pathlib] splits them, innermost
    first, so that [.parent] is the tail.  The empty list is the working
    directory; an absolute path ends in the part ["/"]. *)
Abbreviation path := (list (list N)) (only parsing).

Definition root : path := [ustr "/"].

(** The working directory and the root always exist and are directories. *)
Definition is_anchor (p : path) : bool :=
  bool_decide (p = []) || bool_decide (p = root).

(** [p.parent]: the anchors are their own parent. *)
Definition parent (p : path) : path :=
  if is_anchor p then p else tail p.

Record perm := { readable : bool; writable : bool }.

(** What a fresh file gets from [open(..., 'w')]. *)
Definition default_perm : perm := {| readable := true; writable := true |}.

Inductive inode :=
| Dir
| File (mode : perm) (data : str).

(** What the script did to the world, in order: it entered [render], a
    directory was made, a file was written. *)
Inductive event :=
| CalledRender (tpl : str) (ctx : gmap str value) (out : str)
| MadeDir (p : path)
| Wrote (p : path) (text : str).

Record world := { fs : gmap path inode; log : list event }.

Definition set_fs (w : world) (f : gmap path inode) : world :=
  {| fs := f; log := log w |}.

Definition emit (w : world) (ev : event) : world :=
  {| fs := fs w; log := log w ++ [ev] |}.

Definition is_dir (f : gmap path inode) (p : path) : bool :=
  is_anchor p ||
  match f !! p with
  | Some Dir => true
  | _ => false
  end.

Definition is_file (f : gmap path inode) (p : path) : bool :=
  negb (is_anchor p) &&
  match f !! p with
  | Some (File _ _) => true
  | _ => false
  end.

(** Some proper ancestor of [p] is a regular file: the system answers
    ENOTDIR for such a path. *)
Fixpoint under_file (f : gmap path inode) (p : path) : bool :=
  match p with
  | [] => false
  | _ :: q => is_file f q || under_file f q
  end.

(** The text of the regular file at [p], if there is one. *)
Definition file_data (f : gmap path inode) (p : path) : option str :=
  match f !! p with
  | Some (File _ data) => if is_anchor p then None else Some data
  | _ => None
  end.

(** A computation of the script: it runs in a world and returns a value or
    raises; the world it leaves is kept in both cases. *)
Definition M (A : Type) : Type := world -> result A * world.

Definition ret {A} (a : A) : M A := fun w => (Ok a, w).
Definition raise {A} (e : exn) : M A := fun w => (Raise e, w).
Definition lift {A} (r : result A) : M A := fun w => (r, w).

Definition bind {A B} (m : M A) (k : A -> M B) : M B :=
  fun w =>
    match m w with
    | (Ok a, w') => k a w'
    | (Raise e, w') => (Raise e, w')
    end.

Notation "x <- m ;; k" := (bind m (fun x => k))
  (at level 100, m at next level, right associativity).

(** *** [pathlib] and [os] *)

(** [s.split(sep)] for a one-code-point separator. *)
Fixpoint split (sep : N) (s : str) : list str :=
  match s with
  | [] => [[]]
  | c :: s' =>
      if c =? sep then [] :: split sep s'
      else
        match split sep s' with
        | [] => [[c]]
        | piece :: pieces => (c :: piece) :: pieces
        end
  end.

Definition slash : N := 47.

(** The parts that name something: empty parts and ["."] are dropped, by
    [pathlib.Path] and by Jinja2's [split_template_path] alike. *)
Definition proper_part (piece : str) : bool :=
  negb (bool_decide (piece = [])) && negb (bool_decide (piece = ustr ".")).

(** [pathlib.Path(s)].  A leading slash makes the path absolute. *)
Definition Path (s : str) : path :=
  rev (List.filter proper_part (split slash s))
    ++ (if PyStr.startswith (ustr "/") s then root else []).

(** [Path(p).read_text()] *)
Definition read_text (p : path) : M str :=
  fun w =>
    if is_anchor p then (Raise IsADirectoryError, w)
    else
      match fs w !! p with
      | Some (File mode data) =>
          if readable mode then (Ok data, w) else (Raise PermissionError, w)
      | Some Dir => (Raise IsADirectoryError, w)
      | None =>
          if under_file (fs w) p then (Raise NotADirectoryError, w)
          else (Raise FileNotFoundError, w)
      end.

(** [os.mkdir(p)] *)
Definition os_mkdir (p : path) : M unit :=
  fun w =>
    if is_anchor p then (Raise FileExistsError, w)
    else if under_file (fs w) p then (Raise NotADirectoryError, w)
    else if negb (is_dir (fs w) (parent p)) then (Raise FileNotFoundError, w)
    else
      match fs w !! p with
      | Some _ => (Raise FileExistsError, w)
      | None => (Ok tt, emit (set_fs w (<[p := Dir]> (fs w))) (MadeDir p))
      end.

(** [Path.mkdir(parents=False, exist_ok=...)]: an [OSError] other than
    "no such file" is swallowed when [exist_ok] is set and the path is a
    directory. *)
Definition mkdir_leaf (exist_ok : bool) (p : path) : M unit :=
  fun w =>
    match os_mkdir p w with
    | (Ok u, w') => (Ok u, w')
    | (Raise FileNotFoundError, w') => (Raise FileNotFoundError, w')
    | (Raise e, w') =>
        if negb exist_ok || negb (is_dir (fs w') p) then (Raise e, w')
        else (Ok tt, w')
    end.

(** [Path.mkdir(parents=True, exist_ok=...)]: on "no such file" the parent
    is made first, with [parents=True, exist_ok=True], and the directory
    itself is then made with [parents=False]. *)
Fixpoint mkdir_parents (exist_ok : bool) (p : path) : M unit :=
  fun w =>
    match os_mkdir p w with
    | (Ok u, w') => (Ok u, w')
    | (Raise FileNotFoundError, w') =>
        match p with
        | [] => (Raise FileNotFoundError, w')
        | _ :: q =>
            if bool_decide (parent p = p) then (Raise FileNotFoundError, w')
            else (_ <- mkdir_parents true q ;; mkdir_leaf exist_ok p) w'
        end
    | (Raise e, w') =>
        if negb exist_ok || negb (is_dir (fs w') p) then (Raise e, w')
        else (Ok tt, w')
    end.

Definition mkdir (parents exist_ok : bool) (p : path) : M unit :=
  if parents then mkdir_parents exist_ok p else mkdir_leaf exist_ok p.

(** [Path(p).write_text(text)]: the file is created, or truncated if it is
    there, and [text] becomes its content. *)
Definition write_text (p : path) (text : str) : M unit :=
  fun w =>
    if is_anchor p then (Raise IsADirectoryError, w)
    else if under_file (fs w) p then (Raise NotADirectoryError, w)
    else if negb (is_dir (fs w) (parent p)) then (Raise FileNotFoundError, w)
    else
      match fs w !! p with
      | Some Dir => (Raise IsADirectoryError, w)
      | Some (File mode _) =>
          if writable mode
          then (Ok tt, emit (set_fs w (<[p := File mode text]> (fs w))) (Wrote p text))
          else (Raise PermissionError, w)
      | None =>
          (Ok tt, emit (set_fs w (<[p := File default_perm text]> (fs w))) (Wrote p text))
      end.

(** ** The template engine *)

(** What a template expression can denote: a value of the context, the
    undefined object Jinja2 puts in place of a name it cannot resolve, or a
    callable of the environment's globals. *)
Inductive callable :=
| JavaConst
| Builtin (name : str).

Inductive object :=
| Data (v : value)
| Undef (name : str)
| Func (f : callable).

(** Straight-line templates: literal text and [{{ e }}] substitutions,
    where [e] is a string literal, a name, a call, or an expression piped
    through the filter [default], as in [e | default(d)]. *)
Inductive expr :=
| Const (s : str)
| Name (x : str)
| Call (f : expr) (args : list expr)
| Default (e d : expr).

Inductive node :=
| TemplateData (text : str)
| Output (e : expr).

(** The class of the undefined object: printing Jinja2's default
    [Undefined] gives the empty string, printing [StrictUndefined] raises. *)
Inductive undefined_class :=
| Undefined
| StrictUndefined.

Inductive loader_class :=
| FileSystemLoader (searchpath : str).

Record Environment := {
  loader : loader_class;
  trim_blocks : bool;
  lstrip_blocks : bool;
  undefined : undefined_class;
  globals : gmap str object
}.

(** The globals every environment starts with. *)
Definition DEFAULT_NAMESPACE : gmap str object :=
  list_to_map
    (List.map (fun name => (ustr name, Func (Builtin (ustr name))))
       ["range"; "dict"; "lipsum"; "cycler"; "joiner"; "namespace"]%string).

(** [Environment(loader=..., trim_blocks=..., lstrip_blocks=..., undefined=...)] *)
Definition new_Environment (l : loader_class) (trim lstrip : bool)
    (u : undefined_class) : Environment :=
  {| loader := l; trim_blocks := trim; lstrip_blocks := lstrip;
     undefined := u; globals := DEFAULT_NAMESPACE |}.

(** [env.globals[name] = o] *)
Definition set_global (name : str) (o : object) (env : Environment) : Environment :=
  {| loader := loader env; trim_blocks := trim_blocks env;
     lstrip_blocks := lstrip_blocks env; undefined := undefined env;
     globals := <[name := o]> (globals env) |}.

(** The interpreter and the libraries the script calls into, which are not
    part of it, as one run of the interpreter has them: the Unicode
    uppercase table, PyYAML's loader on a stream that holds a document,
    [argparse] for the one option [--spec] (given its default and the
    argument list, the value of [args.spec]), Jinja2's lexer and parser
    (given [trim_blocks], [lstrip_blocks] and the source), [str()] on objects
    that are not strings, and the calls of Jinja2's built-in globals.  The
    last two differ from one run of the interpreter to the next: [str()] of
    a function shows where the process has put it, [str()] of a set follows
    the hash seed of the process, and the built-in [lipsum] draws random
    words. *)
Record Runtime := {
  unicode_upper : N -> list N;
  yaml_document : str -> result value;
  argparse_spec : str -> list str -> result str;
  jinja_compile : bool -> bool -> str -> result (list node);
  py_str : object -> str;
  call_builtin : str -> list object -> result object
}.

(** The plain scalars PyYAML's resolver reads as null. *)
Definition null_scalars : list str :=
  [ustr "~"; ustr "null"; ustr "Null"; ustr "NULL"].

(** [text] without its final line break, if it ends in one. *)
Definition chomp (text : str) : str :=
  match rev text with
  | 10 :: r => rev r
  | _ => text
  end.

(** The streams [yaml.safe_load] answers with [None] before any document
    is built: the empty stream, in which [get_single_node] finds no document,
    and the stream that is one null scalar. *)
Definition null_stream (text : str) : bool :=
  bool_decide (text = []) || bool_decide (chomp text ∈ null_scalars).

(** [yaml.safe_load(text)] *)
Definition yaml_safe_load (rt : Runtime) (text : str) : result value :=
  if null_stream text then Ok VNone else yaml_document rt text.

Section Generator.

Variable rt : Runtime.

(** *** Rendering *)

(** [java_const] called from a template.  A string is converted; on the
    undefined object the attribute access [name.upper] raises, for either
    class; [bytes] has [upper] and its [replace] then refuses the string
    arguments; any other object has no [upper]. *)
Definition call_java_const (args : list object) : result object :=
  match args with
  | [Data (VStr name)] => Ok (Data (VStr (java_const (unicode_upper rt) name)))
  | [Data (VBytes _)] => Raise TypeError
  | [Undef x] => Raise (UndefinedError x)
  | [_] => Raise AttributeError
  | _ => Raise TypeError
  end.

Definition call (f : object) (args : list object) : result object :=
  match f with
  | Func JavaConst => call_java_const args
  | Func (Builtin b) => call_builtin rt b args
  | Undef x => Raise (UndefinedError x)
  | Data _ => Raise TypeError
  end.

(** [context.resolve(x)] *)
Definition resolve (cx : gmap str object) (x : str) : object :=
  match cx !! x with
  | Some o => o
  | None => Undef x
  end.

Fixpoint eval (cx : gmap str object) (e : expr) : result object :=
  match e with
  | Const s => Ok (Data (VStr s))
  | Name x => Ok (resolve cx x)
  | Call f args =>
      result_bind (eval cx f) (fun fo =>
      result_bind
        ((fix eval_args (l : list expr) : result (list object) :=
            match l with
            | [] => Ok []
            | a :: l' =>
                result_bind (eval cx a) (fun o =>
                result_bind (eval_args l') (fun os => Ok (o :: os)))
            end) args)
        (fun os => call fo os))
  | Default e d =>
      result_bind (eval cx e) (fun o =>
      result_bind (eval cx d) (fun od =>
      Ok (match o with
          | Undef _ => od
          | _ => o
          end)))
  end.

(** The text a substitution puts into the output. *)
Definition to_string (u : undefined_class) (o : object) : result str :=
  match o with
  | Data (VStr s) => Ok s
  | Undef x =>
      match u with
      | Undefined => Ok []
      | StrictUndefined => Raise (UndefinedError x)
      end
  | _ => Ok (py_str rt o)
  end.

Definition render_node (env : Environment) (cx : gmap str object) (n : node)
    : result str :=
  match n with
  | TemplateData text => Ok text
  | Output e => result_bind (eval cx e) (to_string (undefined env))
  end.

Fixpoint render_nodes (env : Environment) (cx : gmap str object)
    (t : list node) : result str :=
  match t with
  | [] => Ok []
  | n :: t' =>
      result_bind (render_node env cx n) (fun piece =>
      result_bind (render_nodes env cx t') (fun rest => Ok (piece ++ rest)))
  end.

(** The context of a render: the variables passed to [render], over the
    globals of the environment. *)
Definition new_context (env : Environment) (vars : gmap str value)
    : gmap str object :=
  (Data <$> vars) ∪ globals env.

(** [template.render], called with the entries of [vars] as keyword
    arguments. *)
Definition template_render (env : Environment) (t : list node)
    (vars : gmap str value) : result str :=
  render_nodes env (new_context env vars) t.

(** Jinja2's [split_template_path]: a [".."] part is refused. *)
Definition split_template_path (template : str) : result (list str) :=
  let pieces := split slash template in
  if existsb (fun piece => bool_decide (piece = ustr "..")) pieces
  then Raise TemplateNotFound
  else Ok (List.filter proper_part pieces).

(** The file a template name stands for under the loader's search path. *)
Definition template_file (env : Environment) (pieces : list str) : path :=
  match loader env with
  | FileSystemLoader searchpath => rev pieces ++ Path searchpath
  end.

(** [env.get_template(name)] *)
Definition get_template (env : Environment) (name : str) : M (list node) :=
  pieces <- lift (split_template_path name) ;;
  fun w =>
    let filename := template_file env pieces in
    if is_file (fs w) filename
    then (source <- read_text filename ;;
          lift (jinja_compile rt (trim_blocks env) (lstrip_blocks env) source)) w
    else (Raise TemplateNotFound, w).

(** *** The script *)

(** [[
def load_spec(path):
  raw = yaml.safe_load(pathlib.Path(path).read_text())
  return {"spec": raw, "source_path": str(path)}
]] *)
Definition load_spec (path : str) : M (gmap str value) :=
  text <- read_text (Path path) ;;
  raw <- lift (yaml_safe_load rt text) ;;
  ret (<[ustr "spec" := raw]> (<[ustr "source_path" := VStr path]> ∅)).

(** [[
def render(env, tpl, ctx, out):
  text = env.get_template(tpl).render(ctx as keyword arguments)
  outp = pathlib.Path(out)
  outp.parent.mkdir(parents=True, exist_ok=True)
  outp.write_text(text)
]]
    The first step records the call in the log of the run; it stands for no
    statement of the source. *)
Definition render (env : Environment) (tpl : str) (ctx : gmap str value)
    (out : str) : M unit :=
  _ <- (fun w => (Ok tt, emit w (CalledRender tpl ctx out))) ;;
  t <- get_template env tpl ;;
  text <- lift (template_render env t ctx) ;;
  let outp := Path out in
  _ <- mkdir true true (parent outp) ;;
  write_text outp text.

(** [a | b] on dictionaries: the entries of [b] win. *)
Definition dict_or (a b : gmap str value) : gmap str value := b ∪ a.

(** The environment the script builds, with [java_const] among its
    globals. *)
Definition script_env : Environment :=
  set_global (ustr "java_const") (Func JavaConst)
    (new_Environment (FileSystemLoader (ustr ".")) true true StrictUndefined).

Definition template_name : str := ustr "./SdkSpec.java.j2".
Definition output_name : str := ustr "out/java/SdkSpec.java".
Definition java_package : str := ustr "com.braintrust.semconv".

(** The body under [if __name__ == "__main__":]. *)
Definition main (argv : list str) : M unit :=
  spec <- lift (argparse_spec rt (ustr "sdk-spec.yaml") argv) ;;
  let env := script_env in
  ctx0 <- load_spec spec ;;
  let ctx := dict_or ctx0 (<[ustr "java_package" := VStr java_package]> ∅) in
  render env template_name ctx output_name.

End Generator.

(** ** A concrete runtime and concrete worlds

    The properties below hold for every runtime; to run the script on
    concrete inputs one is fixed here.  It knows the Latin-1 rows of the
    uppercase table, three YAML documents and three template sources. *)

Definition demo_safe_load (text : str) : result value :=
  if bool_decide (text = []) then Ok VNone
  else if bool_decide (text = ustr "~") then Ok VNone
  else if bool_decide (text = ustr "null") then Ok VNone
  else if bool_decide (text = ustr "name: semantic-conv.name")
  then Ok (VDict [(VStr (ustr "name"), VStr (ustr "semantic-conv.name"))])
  else Raise YAMLError.

Definition demo_argparse (default : str) (argv : list str) : result str :=
  match argv with
  | [] => Ok default
  | [opt; v] => if bool_decide (opt = ustr "--spec") then Ok v else Raise (SystemExit 2)
  | _ => Raise (SystemExit 2)
  end.

Definition demo_compile (trim lstrip : bool) (source : str) : result (list node) :=
  if bool_decide (source = ustr "package {{ java_package }};")
  then Ok [TemplateData (ustr "package "); Output (Name (ustr "java_package"));
           TemplateData (ustr ";")]
  else if bool_decide (source = ustr "{{ java_const('semantic-conv.name') }}")
  then Ok [Output (Call (Name (ustr "java_const")) [Const (ustr "semantic-conv.name")])]
  else if bool_decide (source = ustr "v{{ version }}")
  then Ok [TemplateData (ustr "v"); Output (Name (ustr "version"))]
  else Raise TemplateSyntaxError.

Definition demo_py_str (o : object) : str :=
  match o with
  | Data VNone => ustr "None"
  | _ => ustr "<object>"
  end.

Definition demo_rt : Runtime :=
  {| unicode_upper := latin1_upper;
     yaml_document := demo_safe_load;
     argparse_spec := demo_argparse;
     jinja_compile := demo_compile;
     py_str := demo_py_str;
     call_builtin := fun _ _ => Raise TypeError |}.




(** A working directory that holds [sdk-spec.yaml] and [SdkSpec.java.j2]
    with the given texts and nothing else; no [out] directory yet. *)
Definition demo_world (spec_text tpl_text : str) : world :=
  {| fs := <[[ustr "sdk-spec.yaml"] := File default_perm spec_text]>
             (<[[ustr "SdkSpec.java.j2"] := File default_perm tpl_text]> ∅);
     log := [] |}.

(** The output path of the script, as [pathlib] splits it. *)
Definition output_path : path := [ustr "SdkSpec.java"; ustr "java"; ustr "out"].

(** ** Notions the properties are stated with *)

(** The proper ancestors of a path, nearest first. *)
Fixpoint ancestors (p : path) : list path :=
  match p with
  | [] => []
  | _ :: q => q :: ancestors q
  end.

(** The file system after the directories [dirs] were made, in that order. *)
Definition add_dirs (dirs : list path) (f : gmap path inode) : gmap path inode :=
  fold_left (fun acc d => <[d := Dir]> acc) dirs f.

(** A file system is a tree: every entry lies in a directory, and the
    anchors are no entries. *)
Definition wf (f : gmap path inode) : Prop :=
  forall p n, f !! p = Some n -> is_anchor p = false /\ is_dir f (parent p) = true.









(** The context the script passes to [render] for the document [raw] read
    from [spec]. *)
Definition script_ctx (raw : value) (spec : str) : gmap str value :=
  <[ustr "spec" := raw]>
    (<[ustr "source_path" := VStr spec]>
       (<[ustr "java_package" := VStr java_package]> ∅)).

(** The events that change the file system. *)
Definition fs_event (ev : event) : bool :=
  match ev with
  | CalledRender _ _ _ => false
  | MadeDir _ | Wrote _ _ => true
  end.

(** A computation that may change the file system but never enters
    [render]. *)
Definition only_fs_events {A} (m : M A) : Prop :=
  forall w, exists evs,
    log (m w).2 = log w ++ evs /\ List.Forall (fun ev => fs_event ev = true) evs.

(** A context as the script builds it, for a one-entry document. *)
Definition demo_ctx : gmap str value :=
  script_ctx (VDict [(VStr (ustr "name"), VStr (ustr "semantic-conv.name"))])
    (ustr "sdk-spec.yaml").

(** The file [./SdkSpec.java.j2] names under the search path ["."]. *)
Definition template_path : path := [ustr "SdkSpec.java.j2"].

(** Worlds to run the script in. *)
Definition package_world : world :=
  demo_world (ustr "name: semantic-conv.name") (ustr "package {{ java_package }};").

Definition helper_world : world :=
  demo_world (ustr "name: semantic-conv.name")
    (ustr "{{ java_const('semantic-conv.name') }}").

Definition version_world : world :=
  demo_world (ustr "name: semantic-conv.name") (ustr "v{{ version }}").


Definition null_spec_world : world :=
  demo_world (ustr "null" ++ [10]) (ustr "package {{ java_package }};").



(** A world in which [out] is a regular file, so that [out/java] cannot be
    made. *)
Definition blocked_world : world :=
  {| fs := <[[ustr "out"] := File default_perm []]> (fs package_world); log := [] |}.

(** The world the first run in [package_world] leaves, in which a second
    run finds [out/java/SdkSpec.java] already there. *)
Definition after_first_run : world := (main demo_rt [] package_world).2.

(** The code points of an identifier in constant form: capital letters,
    digits and the underscore. *)
Definition is_constant_char (c : N) : bool :=
  is_upper_letter c || is_digit c || (c =? underscore).

(** From [f] to [f'] nothing happened but directories being made, among
    the paths [S], where there was nothing. *)
Definition made_dirs (S : list path) (f f' : gmap path inode) : Prop :=
  forall q, f' !! q = f !! q \/ (f !! q = None /\ f' !! q = Some Dir /\ In q S).

(** From [f] to [f'] directories were made among [ancestors outp] and the
    file at [outp] may have been written; every other entry is as it was. *)
Definition wrote_only (outp : path) (f f' : gmap path inode) : Prop :=
  forall q,
    f' !! q = f !! q
    \/ (f !! q = None /\ f' !! q = Some Dir /\ In q (ancestors outp))
    \/ (q = outp /\ f !! q <> Some Dir /\ exists mode text, f' !! q = Some (File mode text)).

(** A computation that keeps the file system a tree. *)
Definition keeps_tree {A} (m : M A) : Prop :=
  forall w, wf (fs w) -> wf (fs (m w).2).

(** Worlds in which the run goes wrong or finds the output in place. *)
Definition malformed_world : world :=
  demo_world (ustr "name: [") (ustr "package {{ java_package }};").

Definition no_template_world : world :=
  {| fs := <[[ustr "sdk-spec.yaml"] := File default_perm (ustr "name: semantic-conv.name")]> ∅;
     log := [] |}.

Definition java_is_file_world : world :=
  {| fs := <[[ustr "java"; ustr "out"] := File default_perm []]>
             (<[[ustr "out"] := Dir]> (fs package_world));
     log := [] |}.

Definition output_is_dir_world : world :=
  {| fs := <[output_path := Dir]>
             (<[[ustr "java"; ustr "out"] := Dir]>
                (<[[ustr "out"] := Dir]> (fs package_world)));
     log := [] |}.

Definition read_only_output_world : world :=
  {| fs := <[output_path := File {| readable := true; writable := false |} (ustr "old")]>
             (<[[ustr "java"; ustr "out"] := Dir]>
                (<[[ustr "out"] := Dir]> (fs package_world)));
     log := [] |}.

(** * Properties *)

(** ** [java_const] *)

Example java_const_demo :
  java_const latin1_upper (ustr "semantic-conv.name") = ustr "SEMANTIC_CONV_NAME".
Proof. reflexivity. Qed.

(** The uppercase mapping may lengthen a string. *)
Example java_const_sharp_s :
  java_const latin1_upper [115; 116; 114; 97; 223; 101; 46; 110]
  = ustr "STRASSE_N".
Proof. reflexivity. Qed.

Example replace_longer_pattern :
  PyStr.replace (ustr "aa") (ustr "b") (ustr "aaaxaa") = ustr "baxb".
Proof. reflexivity. Qed.

Example replace_empty_pattern :
  PyStr.replace [] (ustr "-") (ustr "abc") = ustr "-a-b-c-".
Proof. reflexivity. Qed.

Lemma replace_one_char (a b : N) (s : str) :
  PyStr.replace [a] [b] s = List.map (fun c => if c =? a then b else c) s.
Proof.
  unfold PyStr.replace.
  induction s as [|c s IH]; [reflexivity|].
  cbn [PyStr.replace_scan PyStr.startswith List.length Nat.pred List.map].
  rewrite (N.eqb_sym a c), andb_true_r.
  destruct (c =? a); cbn [app]; now rewrite IH.
Qed.

Lemma underscore_punct_two_steps (c : N) :
  (fun c => if c =? period then underscore else c)
    ((fun c => if c =? hyphen then underscore else c) c) = underscore_punct c.
Proof.
  unfold underscore_punct, hyphen, period, underscore. cbn beta.
  destruct (c =? 45) eqn:E1; cbn [orb]; [reflexivity|].
  destruct (c =? 46); reflexivity.
Qed.

Lemma java_const_map (tbl : N -> list N) (s : str) :
  java_const tbl s = List.map underscore_punct (PyStr.upper tbl s).
Proof.
  unfold java_const.
  change (ustr ".") with [period]. change (ustr "-") with [hyphen].
  change (ustr "_") with [underscore].
  rewrite !replace_one_char, List.map_map.
  apply List.map_ext. intros c. apply underscore_punct_two_steps.
Qed.

(** C1: [java_const] returns the uppercased input with every hyphen and
    every period replaced by an underscore; on "semantic-conv.name" it
    returns "SEMANTIC_CONV_NAME". *)
Theorem java_const_upper_then_underscores (tbl : N -> list N) :
  (forall s : str, java_const tbl s = List.map underscore_punct (PyStr.upper tbl s))
  /\ java_const tbl (ustr "semantic-conv.name") = ustr "SEMANTIC_CONV_NAME".
Proof.
  split; [apply java_const_map | reflexivity].
Qed.

(** Case analysis on the comparisons of code points in the goal. *)
Ltac split_cmp :=
  repeat match goal with
    | |- context [N.leb ?a ?b] => destruct (N.leb_spec a b)
    | |- context [N.ltb ?a ?b] => destruct (N.ltb_spec a b)
    | |- context [N.eqb ?a ?b] => destruct (N.eqb_spec a b)
    end;
  cbn [andb orb negb] in *.

Lemma flat_map_singletons {A} (f : A -> list A) (l : list A) :
  List.Forall (fun a => f a = [a]) l -> flat_map f l = l.
Proof.
  induction 1 as [|a l Ha _ IH]; [reflexivity|].
  cbn [flat_map]. now rewrite Ha, IH.
Qed.

Lemma java_const_one (tbl : N -> list N) (c : N) :
  java_const tbl [c] = List.map underscore_punct (PyStr.to_upper tbl c).
Proof.
  rewrite java_const_map. unfold PyStr.upper. cbn [flat_map].
  now rewrite app_nil_r.
Qed.

Lemma java_const_flat_map (tbl : N -> list N) (s : str) :
  java_const tbl s = flat_map (fun c => java_const tbl [c]) s.
Proof.
  rewrite java_const_map. unfold PyStr.upper.
  induction s as [|c s IH]; [reflexivity|].
  cbn [flat_map]. now rewrite List.map_app, IH, java_const_one.
Qed.

Lemma java_const_ascii_char (tbl : N -> list N) (c : N) :
  c < 128 -> java_const tbl [c] = [underscore_punct (PyStr.ascii_upper c)].
Proof.
  intros Hc. rewrite java_const_one. unfold PyStr.to_upper.
  destruct (N.ltb_spec c 128); [reflexivity | lia].
Qed.

Lemma java_const_ascii (tbl : N -> list N) (s : str) :
  List.Forall (fun c => c < 128) s ->
  java_const tbl s = List.map (fun c => underscore_punct (PyStr.ascii_upper c)) s.
Proof.
  intros Hs. rewrite java_const_flat_map.
  induction Hs as [|c s Hc _ IH]; [reflexivity|].
  cbn [flat_map List.map]. now rewrite IH, java_const_ascii_char.
Qed.

Lemma map_underscore_punct_id (l : list N) :
  (forall d, In d l -> d <> hyphen /\ d <> period) ->
  List.map underscore_punct l = l.
Proof.
  intros Hl. rewrite <- (List.map_id l) at 2. apply List.map_ext_in.
  intros d Hd. destruct (Hl d Hd) as [H1 H2].
  unfold underscore_punct. split_cmp; congruence.
Qed.

(** C6, as far as it holds: [java_const] works code point by code point.
    An ASCII letter becomes an uppercase ASCII letter, an ASCII digit stays,
    a hyphen or period becomes an underscore, and any other code point is
    replaced by its uppercase mapping and otherwise unchanged.  On an ASCII
    string the images sit at the positions of the code points they come
    from. *)
Theorem java_const_charwise (tbl : N -> list N) (Hp : upper_no_punct tbl) :
  (forall s : str, java_const tbl s = flat_map (fun c => java_const tbl [c]) s)
  /\ (forall c, is_letter c = true ->
        exists d, is_upper_letter d = true /\ java_const tbl [c] = [d])
  /\ (forall c, is_digit c = true -> java_const tbl [c] = [c])
  /\ (forall c, c = hyphen \/ c = period -> java_const tbl [c] = [underscore])
  /\ (forall c, is_letter c = false -> is_digit c = false ->
        c <> hyphen -> c <> period ->
        java_const tbl [c] = PyStr.upper tbl [c])
  /\ (forall s : str, List.Forall (fun c => c < 128) s ->
        List.length (java_const tbl s) = List.length s
        /\ forall i c, nth_error s i = Some c ->
             nth_error (java_const tbl s) i = Some (underscore_punct (PyStr.ascii_upper c))).
Proof.
  repeat split.
  - apply java_const_flat_map.
  - intros c Hc. exists (PyStr.ascii_upper c).
    assert (c < 128) as Hlt.
    { revert Hc. unfold is_letter, is_upper_letter, is_lower_letter.
      split_cmp; intros; try discriminate; lia. }
    rewrite java_const_ascii_char by exact Hlt.
    revert Hc.
    unfold is_letter, is_upper_letter, is_lower_letter, underscore_punct,
      PyStr.ascii_upper, hyphen, period, underscore.
    split_cmp; intros; try discriminate; try lia;
      (split; [|reflexivity]); split_cmp; try reflexivity; lia.
  - intros c Hc.
    assert (c < 128) as Hlt.
    { revert Hc. unfold is_digit. split_cmp; intros; try discriminate; lia. }
    rewrite java_const_ascii_char by exact Hlt.
    revert Hc.
    unfold is_digit, underscore_punct, PyStr.ascii_upper, hyphen, period, underscore.
    split_cmp; intros; try discriminate; try lia; reflexivity.
  - intros c [-> | ->]; reflexivity.
  - intros c Hl Hd Hh Hpd. rewrite java_const_one.
    unfold PyStr.upper. cbn [flat_map]. rewrite app_nil_r.
    apply map_underscore_punct_id. intros d Hin.
    unfold PyStr.to_upper in Hin. destruct (N.ltb_spec c 128) as [Hlt | Hge].
    + destruct Hin as [<- | []].
      revert Hl Hh Hpd.
      unfold is_letter, is_upper_letter, is_lower_letter, PyStr.ascii_upper,
        hyphen, period.
      split_cmp; intros; try discriminate; split; lia.
    + exact (Hp c d Hge Hin).
  - rewrite java_const_ascii by assumption. apply List.length_map.
  - intros i c Hi. rewrite java_const_ascii by assumption.
    now rewrite List.nth_error_map, Hi.
Qed.

Lemma latin1_upper_no_punct : upper_no_punct latin1_upper.
Proof.
  intros c d Hc. unfold latin1_upper, hyphen, period.
  split_cmp; cbn [In]; intros Hin;
    repeat match goal with
      | Hd : _ \/ _ |- _ => destruct Hd as [Hd | Hd]
      | Hd : False |- _ => destruct Hd
      end; subst d; split; lia.
Qed.

Lemma latin1_upper_stable : upper_stable latin1_upper.
Proof.
  intros c d Hc. unfold latin1_upper at 1.
  split_cmp; cbn [In]; intros Hin;
    repeat match goal with
      | Hd : _ \/ _ |- _ => destruct Hd as [Hd | Hd]
      | Hd : False |- _ => destruct Hd
      end; subst d; try reflexivity;
    unfold PyStr.to_upper, latin1_upper, PyStr.ascii_upper;
    split_cmp; try reflexivity; lia.
Qed.

(** The images of [java_const] are fixed by the uppercase mapping. *)
Lemma upper_of_java_const (tbl : N -> list N) (Hs : upper_stable tbl) (s : str) :
  PyStr.upper tbl (java_const tbl s) = java_const tbl s.
Proof.
  apply flat_map_singletons. rewrite java_const_map.
  apply List.Forall_forall. intros d Hd.
  apply List.in_map_iff in Hd as (d' & <- & Hd').
  apply List.in_flat_map in Hd' as (c & _ & Hc).
  unfold PyStr.to_upper in Hc.
  destruct (N.ltb_spec c 128) as [Hlt | Hge].
  - destruct Hc as [<- | []].
    unfold PyStr.to_upper, underscore_punct, PyStr.ascii_upper,
      hyphen, period, underscore.
    split_cmp; try reflexivity; lia.
  - pose proof (Hs c d' Hge Hc) as Hfix.
    unfold underscore_punct, hyphen, period, underscore.
    split_cmp; try reflexivity; exact Hfix.
Qed.

Lemma underscore_punct_idempotent (c : N) :
  underscore_punct (underscore_punct c) = underscore_punct c.
Proof.
  unfold underscore_punct, hyphen, period, underscore.
  split_cmp; try reflexivity; lia.
Qed.

(** C9: [java_const] is idempotent. *)
Theorem java_const_idempotent (tbl : N -> list N) (Hs : upper_stable tbl) (s : str) :
  java_const tbl (java_const tbl s) = java_const tbl s.
Proof.
  rewrite (java_const_map tbl (java_const tbl s)).
  rewrite upper_of_java_const by exact Hs.
  rewrite java_const_map, List.map_map.
  apply List.map_ext. intros c. apply underscore_punct_idempotent.
Qed.

Lemma java_const_idempotent_witness :
  upper_stable latin1_upper
  /\ java_const latin1_upper
       (java_const latin1_upper [115; 116; 114; 97; 223; 101; 46; 110])
     = java_const latin1_upper [115; 116; 114; 97; 223; 101; 46; 110].
Proof.
  split.
  - exact latin1_upper_stable.
  - apply (java_const_idempotent latin1_upper latin1_upper_stable).
Defined.

Lemma java_const_charwise_witness :
  upper_no_punct latin1_upper
  /\ java_const latin1_upper [115; 116; 114; 97; 223; 101; 46; 110]
     = flat_map (fun c => java_const latin1_upper [c])
         [115; 116; 114; 97; 223; 101; 46; 110].
Proof.
  split.
  - exact latin1_upper_no_punct.
  - apply (proj1 (java_const_charwise latin1_upper latin1_upper_no_punct)).
Defined.

Lemma special_upper_no_punct : upper_no_punct special_upper.
Proof.
  intros c d Hc. unfold special_upper.
  destruct (N.eqb_spec c 912) as [-> | _]; [|exact (latin1_upper_no_punct c d Hc)].
  unfold hyphen, period. cbn [In].
  intros [<- | [<- | [<- | []]]]; split; lia.
Qed.

(** The claim C6 as the specification words it, for all strings, fails
    beyond ASCII, where one code point may have several in its uppercase
    mapping.  In the string of U+0390 and [a] the letter [a] is at index 1;
    in the result index 1 holds COMBINING DIAERESIS (U+0308), which is
    neither an uppercase letter nor a digit nor an underscore, and the
    result is longer than the input.  And FEMININE ORDINAL INDICATOR
    (U+00AA), a letter of Unicode with no uppercase, is left as it is, so
    that a letter of the input is no uppercase letter in the result. *)
Lemma java_const_charwise_counterexample :
  upper_no_punct special_upper
  /\ nth_error [912; 97] 1 = Some 97
  /\ is_letter 97 = true
  /\ java_const special_upper [912; 97] = [921; 776; 769; 65]
  /\ nth_error (java_const special_upper [912; 97]) 1 = Some 776
  /\ is_constant_char 776 = false
  /\ List.length (java_const special_upper [912; 97]) <> List.length [912; 97]
  /\ java_const special_upper [170] = [170]
  /\ is_constant_char 170 = false.
Proof.
  split_and!; [exact special_upper_no_punct | reflexivity | reflexivity
              | vm_compute; reflexivity | vm_compute; reflexivity | reflexivity
              | vm_compute; discriminate | vm_compute; reflexivity | reflexivity].
Qed.

(** ** The file system *)

Section FileSystem.

Implicit Types (f : gmap path inode) (p q : path) (w : world).

Lemma parent_cons p x : is_anchor (x :: p) = false -> parent (x :: p) = p.
Proof. intros Ha. unfold parent. now rewrite Ha. Qed.

Lemma is_dir_anchor f p : is_anchor p = true -> is_dir f p = true.
Proof. intros Ha. unfold is_dir. now rewrite Ha. Qed.

Lemma is_dir_not_file f p : is_dir f p = true -> is_file f p = false.
Proof.
  unfold is_dir, is_file. destruct (is_anchor p); [reflexivity|].
  destruct (f !! p) as [[|mode data]|]; cbn; congruence.
Qed.

Lemma ancestors_shorter p q : In q (ancestors p) -> (List.length q < List.length p)%nat.
Proof.
  induction p as [|x p IH]; cbn [ancestors In List.length]; [tauto|].
  intros [<- | Hq]; [lia|]. specialize (IH Hq). lia.
Qed.

(** In a tree, everything above a directory is a directory. *)
Lemma wf_ancestors f p :
  wf f -> is_dir f p = true -> List.Forall (fun q => is_dir f q = true) (ancestors p).
Proof.
  intros Hwf. induction p as [|x p IH]; intros Hd; cbn [ancestors]; [constructor|].
  assert (is_dir f p = true) as Hp.
  { destruct (is_anchor (x :: p)) eqn:Ha.
    - unfold is_anchor in Ha. apply orb_true_iff in Ha as [Ha | Ha];
        apply bool_decide_eq_true_1 in Ha; [discriminate|].
      unfold root in Ha. injection Ha as _ ->. reflexivity.
    - revert Hd. unfold is_dir. rewrite Ha. cbn [orb].
      destruct (f !! (x :: p)) as [n|] eqn:Hl; intros Hd; [|discriminate Hd].
      destruct (Hwf _ _ Hl) as [_ Hpar]. now rewrite parent_cons in Hpar. }
  constructor; [exact Hp | exact (IH Hp)].
Qed.

Lemma wf_under_file f p : wf f -> is_dir f p = true -> under_file f p = false.
Proof.
  intros Hwf Hd. pose proof (wf_ancestors f p Hwf Hd) as Hall.
  clear Hd. induction p as [|x p IH]; [reflexivity|].
  cbn [ancestors] in Hall. inversion Hall as [|? ? Hp Hrest]; subst.
  cbn [under_file]. rewrite (is_dir_not_file f p Hp), (IH Hrest). reflexivity.
Qed.

Lemma lookup_add_dirs dirs f p :
  add_dirs dirs f !! p = if decide (p ∈ dirs) then Some Dir else f !! p.
Proof.
  unfold add_dirs. revert f.
  induction dirs as [|d dirs IH]; intros f; cbn [fold_left].
  - destruct (decide (p ∈ [])) as [Hin|]; [|reflexivity]. inversion Hin.
  - rewrite IH. destruct (decide (p ∈ dirs)) as [Hin | Hnin].
    + rewrite decide_True by (right; exact Hin). reflexivity.
    + destruct (decide (p = d)) as [-> | Hne].
      * rewrite decide_True by left. apply lookup_insert_eq.
      * rewrite decide_False.
        -- now apply lookup_insert_ne.
        -- intros Hin. inversion Hin; subst; tauto.
Qed.

(** Making directories where there was nothing leaves the files alone. *)
Lemma is_file_add_dirs dirs f p :
  List.Forall (fun d => f !! d = None) dirs -> is_file (add_dirs dirs f) p = is_file f p.
Proof.
  intros Hall. unfold is_file. rewrite lookup_add_dirs.
  destruct (decide (p ∈ dirs)) as [Hin|]; [|reflexivity].
  apply list_elem_of_In in Hin.
  rewrite (proj1 (List.Forall_forall _ _) Hall p Hin). reflexivity.
Qed.

Lemma wf_insert f p n :
  wf f -> is_anchor p = false -> is_dir f (parent p) = true ->
  (f !! p = None \/ exists mode data mode' data',
      f !! p = Some (File mode data) /\ n = File mode' data') ->
  wf (<[p := n]> f).
Proof.
  intros Hwf Ha Hpar Hold q m Hq.
  assert (forall r, is_dir f r = true -> is_dir (<[p := n]> f) r = true) as Hmono.
  { intros r. unfold is_dir. destruct (is_anchor r); [reflexivity|]. cbn [orb].
    destruct (decide (p = r)) as [<- | Hne].
    - destruct Hold as [-> | (mode & data & ? & ? & -> & _)]; discriminate.
    - now rewrite lookup_insert_ne. }
  destruct (decide (p = q)) as [<- | Hne].
  - split; [exact Ha | exact (Hmono _ Hpar)].
  - rewrite lookup_insert_ne in Hq by exact Hne.
    destruct (Hwf _ _ Hq) as [Haq Hdq]. split; [exact Haq | exact (Hmono _ Hdq)].
Qed.

End FileSystem.

(** ** Making directories and writing files *)

Lemma mkdir_parents_eq (exist_ok : bool) (p : path) (w : world) :
  mkdir_parents exist_ok p w =
  match os_mkdir p w with
  | (Ok u, w') => (Ok u, w')
  | (Raise FileNotFoundError, w') =>
      match p with
      | [] => (Raise FileNotFoundError, w')
      | _ :: q =>
          if bool_decide (parent p = p) then (Raise FileNotFoundError, w')
          else (_ <- mkdir_parents true q ;; mkdir_leaf exist_ok p) w'
      end
  | (Raise e, w') =>
      if negb exist_ok || negb (is_dir (fs w') p) then (Raise e, w')
      else (Ok tt, w')
  end.
Proof. destruct p; reflexivity. Qed.

(** [os.mkdir] in a tree, on a path that is not below a file and where the
    parent is a directory: the directory is made unless something is there. *)
Lemma os_mkdir_parent_dir (p : path) (w : world) :
  is_anchor p = false -> under_file (fs w) p = false ->
  is_dir (fs w) (parent p) = true ->
  os_mkdir p w =
  match fs w !! p with
  | Some _ => (Raise FileExistsError, w)
  | None => (Ok tt, {| fs := <[p := Dir]> (fs w); log := log w ++ [MadeDir p] |})
  end.
Proof.
  intros Ha Hu Hd. unfold os_mkdir. rewrite Ha, Hu, Hd. reflexivity.
Qed.

(** [mkdir(parents=False, exist_ok=True)] under the same conditions, when
    no file is in the way. *)
Lemma mkdir_leaf_parent_dir (p : path) (w : world) :
  wf (fs w) -> is_anchor p = false -> under_file (fs w) p = false ->
  is_dir (fs w) (parent p) = true -> is_file (fs w) p = false ->
  exists dirs,
    mkdir_leaf true p w
    = (Ok tt, {| fs := add_dirs dirs (fs w); log := log w ++ List.map MadeDir dirs |})
    /\ List.Forall (fun d => fs w !! d = None /\ d = p) dirs
    /\ wf (add_dirs dirs (fs w))
    /\ is_dir (add_dirs dirs (fs w)) p = true.
Proof.
  intros Hwf Ha Hu Hd Hf. unfold mkdir_leaf.
  rewrite os_mkdir_parent_dir by assumption.
  destruct (fs w !! p) as [n|] eqn:Hl.
  - exists []. cbn [add_dirs fold_left List.map]. rewrite app_nil_r.
    assert (is_dir (fs w) p = true) as Hdir.
    { revert Hf. unfold is_file, is_dir. rewrite Ha, Hl.
      destruct n; [reflexivity | discriminate]. }
    cbn [negb orb fs]. rewrite Hdir. destruct w. split_and!; auto.
  - exists [p]. cbn [add_dirs fold_left List.map].
    split_and!.
    + reflexivity.
    + constructor; [now split | constructor].
    + apply wf_insert; auto.
    + unfold is_dir. rewrite Ha, lookup_insert_eq. reflexivity.
Qed.

(** [mkdir(parents=True, exist_ok=True)] succeeds wherever no file is in
    the way.  It makes directories only where there was nothing, on the path
    itself and above it, and leaves a tree in which the path is a
    directory. *)
Lemma mkdir_parents_spec (p : path) : forall w : world,
  wf (fs w) -> under_file (fs w) p = false -> is_file (fs w) p = false ->
  exists dirs,
    mkdir_parents true p w
    = (Ok tt, {| fs := add_dirs dirs (fs w); log := log w ++ List.map MadeDir dirs |})
    /\ List.Forall (fun d => fs w !! d = None /\ In d (p :: ancestors p)) dirs
    /\ wf (add_dirs dirs (fs w))
    /\ is_dir (add_dirs dirs (fs w)) p = true.
Proof.
  induction p as [|x q IH]; intros w Hwf Hu Hf.
  - exists []. cbn [add_dirs fold_left List.map]. rewrite app_nil_r.
    destruct w. split_and!; auto.
  - rewrite mkdir_parents_eq.
    destruct (is_anchor (x :: q)) eqn:Ha.
    { exists []. cbn [add_dirs fold_left List.map]. rewrite app_nil_r.
      unfold os_mkdir. rewrite Ha. cbn [negb orb fs].
      rewrite (is_dir_anchor _ _ Ha). destruct w. split_and!; auto. }
    cbn [under_file] in Hu. apply orb_false_iff in Hu as [Hfq Huq].
    destruct (is_dir (fs w) q) eqn:Hdq.
    + (* the parent is there *)
      destruct (mkdir_leaf_parent_dir (x :: q) w) as (dirs & Hrun & Hall & Hwf' & Hdir);
        auto.
      { cbn [under_file]. now rewrite Hfq, Huq. }
      { now rewrite parent_cons. }
      exists dirs. split_and!; auto.
      * revert Hrun. unfold mkdir_leaf.
        destruct (os_mkdir (x :: q) w) as [[u | e] w1] eqn:Hos; [tauto|].
        destruct e; try tauto.
        intros Hrun. revert Hos. unfold os_mkdir. rewrite Ha.
        cbn [under_file]. rewrite Hfq, Huq, parent_cons, Hdq by exact Ha.
        cbn [orb negb]. destruct (fs w !! (x :: q)); discriminate.
      * eapply List.Forall_impl; [|exact Hall]. cbn beta.
        intros d [Hd ->]. split; [exact Hd | now left].
    + (* the parent is made first *)
      assert (os_mkdir (x :: q) w = (Raise FileNotFoundError, w)) as Hos.
      { unfold os_mkdir. rewrite Ha. cbn [under_file].
        rewrite Hfq, Huq, parent_cons, Hdq by exact Ha. reflexivity. }
      rewrite Hos, parent_cons by exact Ha.
      rewrite bool_decide_eq_false_2.
      2:{ intros Heq. apply (f_equal (@List.length _)) in Heq.
          cbn [List.length] in Heq. lia. }
      destruct (IH w Hwf Huq Hfq) as (dirs1 & Hrun1 & Hall1 & Hwf1 & Hdir1).
      unfold bind. rewrite Hrun1.
      assert (List.Forall (fun d => fs w !! d = None) dirs1) as Habs1.
      { eapply List.Forall_impl; [|exact Hall1]. cbn beta. tauto. }
      set (w1 := {| fs := add_dirs dirs1 (fs w); log := log w ++ List.map MadeDir dirs1 |}).
      destruct (mkdir_leaf_parent_dir (x :: q) w1) as (dirs2 & Hrun2 & Hall2 & Hwf2 & Hdir2);
        cbn [fs w1]; auto.
      { cbn [under_file]. rewrite (is_dir_not_file _ _ Hdir1).
        now rewrite (wf_under_file _ _ Hwf1 Hdir1). }
      { now rewrite parent_cons. }
      { rewrite is_file_add_dirs by exact Habs1. exact Hf. }
      cbn [fs log w1] in Hrun2, Hall2, Hwf2, Hdir2.
      exists (dirs1 ++ dirs2). rewrite Hrun2.
      assert (add_dirs (dirs1 ++ dirs2) (fs w) = add_dirs dirs2 (add_dirs dirs1 (fs w))) as ->.
      { unfold add_dirs. apply fold_left_app. }
      rewrite List.map_app, app_assoc. split_and!; auto.
      apply List.Forall_app. split.
      * eapply List.Forall_impl; [|exact Hall1]. cbn beta.
        intros d [Hd Hin]. split; [exact Hd | right; exact Hin].
      * eapply List.Forall_impl; [|exact Hall2]. cbn beta.
        intros d [Hd ->]. split; [|now left].
        rewrite lookup_add_dirs in Hd. destruct (decide ((x :: q) ∈ dirs1)); [discriminate|].
        exact Hd.
Qed.

Lemma write_text_spec (p : path) (text : str) (w : world) :
  is_anchor p = false -> under_file (fs w) p = false ->
  is_dir (fs w) (parent p) = true ->
  (fs w !! p = None
   \/ exists mode old, fs w !! p = Some (File mode old) /\ writable mode = true) ->
  exists mode,
    write_text p text w
    = (Ok tt, {| fs := <[p := File mode text]> (fs w); log := log w ++ [Wrote p text] |}).
Proof.
  intros Ha Hu Hd Hold. unfold write_text. rewrite Ha, Hu, Hd. cbn [negb].
  destruct Hold as [-> | (mode & old & -> & Hw)].
  - now exists default_perm.
  - rewrite Hw. now exists mode.
Qed.


(** ** Reading *)

Lemma read_text_fs (p : path) (w1 w2 : world) :
  fs w1 = fs w2 -> read_text p w1 = ((read_text p w2).1, w1).
Proof.
  intros Hfs. unfold read_text. rewrite Hfs.
  destruct (is_anchor p); [reflexivity|].
  destruct (fs w2 !! p) as [[|mode data]|]; [reflexivity| |].
  - destruct (readable mode); reflexivity.
  - destruct (under_file (fs w2) p); reflexivity.
Qed.

Lemma read_text_same_world (p : path) (w : world) :
  read_text p w = ((read_text p w).1, w).
Proof. now apply read_text_fs. Qed.

(** What a successful read returns is the text of the file. *)
Lemma read_text_inv (p : path) (w w' : world) (text : str) :
  read_text p w = (Ok text, w') -> file_data (fs w) p = Some text /\ w' = w.
Proof.
  unfold read_text, file_data.
  destruct (is_anchor p); [discriminate|].
  destruct (fs w !! p) as [[|mode data]|]; [discriminate| |].
  - destruct (readable mode); [|discriminate]. now intros [= <- <-].
  - destruct (under_file (fs w) p); discriminate.
Qed.

Section Script.

Variable rt : Runtime.

Lemma get_template_fs (env : Environment) (tpl : str) (w1 w2 : world) :
  fs w1 = fs w2 ->
  get_template rt env tpl w1 = ((get_template rt env tpl w2).1, w1).
Proof.
  intros Hfs. unfold get_template, bind, lift.
  destruct (split_template_path tpl) as [pieces | e]; [|reflexivity].
  rewrite Hfs. destruct (is_file (fs w2) (template_file env pieces)); [|reflexivity].
  rewrite (read_text_fs _ w1 w2 Hfs), (read_text_same_world _ w2).
  destruct (read_text (template_file env pieces) w2).1; reflexivity.
Qed.


End Script.

(** ** [render] *)

(** C8: when rendering succeeds and no file stands where a directory is
    needed, nor a directory or a read-only file at the output path,
    [render] succeeds: it makes the missing directories above the output
    path, then writes the rendered text there, over a file that may have
    been there; nothing else changes.  That holds in particular when none of
    the directories above the output path are there. *)
Theorem render_writes_output (rt : Runtime) (env : Environment) (tpl : str)
    (ctx : gmap str value) (out : str) (w : world) (t : list node) (text : str) :
  wf (fs w) ->
  (get_template rt env tpl w).1 = Ok t ->
  template_render rt env t ctx = Ok text ->
  is_anchor (Path out) = false ->
  under_file (fs w) (Path out) = false ->
  (fs w !! Path out = None
   \/ exists mode old, fs w !! Path out = Some (File mode old) /\ writable mode = true) ->
  exists w' dirs,
    render rt env tpl ctx out w = (Ok tt, w')
    /\ file_data (fs w') (Path out) = Some text
    /\ List.Forall (fun q => is_dir (fs w') q = true) (ancestors (Path out))
    /\ List.Forall (fun d => fs w !! d = None /\ In d (ancestors (Path out))) dirs
    /\ log w' = log w ++ CalledRender tpl ctx out :: List.map MadeDir dirs
                  ++ [Wrote (Path out) text]
    /\ (forall q, q <> Path out -> ~ In q dirs -> fs w' !! q = fs w !! q)
    /\ wf (fs w').
Proof.
  intros Hwf Ht Hr Ha Hu Hold.
  destruct (Path out) as [|x q] eqn:Hp; [discriminate Ha|].
  cbn [under_file] in Hu. apply orb_false_iff in Hu as [Hfq Huq].
  set (w0 := emit w (CalledRender tpl ctx out)).
  assert (fs w0 = fs w) as Hfs0 by reflexivity.
  destruct (mkdir_parents_spec q w0) as (dirs & Hmk & Hall & Hwf1 & Hdq);
    [rewrite Hfs0; assumption ..|].
  rewrite Hfs0 in Hmk, Hall, Hwf1, Hdq.
  assert (List.Forall (fun d => fs w !! d = None) dirs) as Habs.
  { eapply List.Forall_impl; [|exact Hall]. cbn beta. tauto. }
  assert (~ In (x :: q) dirs) as Hnot.
  { intros Hin. destruct (proj1 (List.Forall_forall _ _) Hall _ Hin) as [_ Hanc].
    apply (ancestors_shorter (x :: q)) in Hanc. lia. }
  set (w1 := {| fs := add_dirs dirs (fs w); log := log w0 ++ List.map MadeDir dirs |}) in Hmk.
  assert (fs w1 !! (x :: q) = fs w !! (x :: q)) as Hsame.
  { unfold w1. cbn [fs]. rewrite lookup_add_dirs.
    destruct (decide ((x :: q) ∈ dirs)) as [Hin|]; [|reflexivity].
    apply list_elem_of_In in Hin. tauto. }
  destruct (write_text_spec (x :: q) text w1) as (mode & Hwr).
  { exact Ha. }
  { unfold w1. cbn [fs under_file]. rewrite (is_dir_not_file _ _ Hdq).
    now rewrite (wf_under_file _ _ Hwf1 Hdq). }
  { rewrite parent_cons by exact Ha. exact Hdq. }
  { rewrite Hsame. exact Hold. }
  assert (wf (<[x :: q := File mode text]> (add_dirs dirs (fs w)))) as Hwf2.
  { apply wf_insert; auto.
    - rewrite parent_cons by exact Ha. exact Hdq.
    - unfold w1 in Hsame. cbn [fs] in Hsame. rewrite Hsame.
      destruct Hold as [Hn | (mode0 & old & Hl & _)]; [now left|].
      right. exists mode0, old, mode, text. now split. }
  eexists. exists dirs. split_and!.
  - unfold render, bind, lift. fold w0.
    rewrite (get_template_fs rt env tpl w0 w Hfs0), Ht, Hr, Hp.
    rewrite parent_cons by exact Ha. cbn [mkdir]. rewrite Hmk, Hwr. reflexivity.
  - cbn [fs]. unfold file_data. now rewrite lookup_insert_eq, Ha.
  - cbn [fs]. cbn [ancestors].
    assert (is_dir (<[x :: q := File mode text]> (add_dirs dirs (fs w))) q = true) as Hdq'.
    { unfold is_dir in *. destruct (is_anchor q); [reflexivity|]. cbn [orb] in *.
      rewrite lookup_insert_ne; [exact Hdq|].
      intros Heq. apply (f_equal (@List.length _)) in Heq. cbn [List.length] in Heq. lia. }
    constructor; [exact Hdq' | exact (wf_ancestors _ _ Hwf2 Hdq')].
  - eapply List.Forall_impl; [|exact Hall]. cbn beta.
    intros d [Hd Hin]. split; [exact Hd | exact Hin].
  - unfold w1, w0. cbn [log emit]. rewrite <- !app_assoc. reflexivity.
  - intros r Hr1 Hr2. unfold w1. cbn [fs].
    rewrite lookup_insert_ne by congruence. rewrite lookup_add_dirs.
    destruct (decide (r ∈ dirs)) as [Hin|]; [|reflexivity].
    apply list_elem_of_In in Hin. tauto.
  - exact Hwf2.
Qed.

(** C3: if loading or rendering the template fails, [render] fails with
    that error having made no directory and written no file: the file system
    is as it was.  Conversely a directory is made or a file written only
    after the template was rendered. *)
Theorem render_error_before_write (rt : Runtime) (env : Environment) (tpl : str)
    (ctx : gmap str value) (out : str) (w : world) :
  (forall e,
      (get_template rt env tpl w).1 = Raise e
      \/ (exists t, (get_template rt env tpl w).1 = Ok t
                    /\ template_render rt env t ctx = Raise e) ->
      exists w',
        render rt env tpl ctx out w = (Raise e, w')
        /\ fs w' = fs w
        /\ log w' = log w ++ [CalledRender tpl ctx out])
  /\ (forall ev,
        In ev (log (render rt env tpl ctx out w).2) ->
        ~ In ev (log w) -> ev <> CalledRender tpl ctx out ->
        exists t text,
          (get_template rt env tpl w).1 = Ok t
          /\ template_render rt env t ctx = Ok text).
Proof.
  set (w0 := emit w (CalledRender tpl ctx out)).
  assert (fs w0 = fs w) as Hfs0 by reflexivity.
  assert (forall e,
      (get_template rt env tpl w).1 = Raise e
      \/ (exists t, (get_template rt env tpl w).1 = Ok t
                    /\ template_render rt env t ctx = Raise e) ->
      render rt env tpl ctx out w = (Raise e, w0)) as Hfail.
  { intros e He. unfold render, bind, lift. fold w0.
    rewrite (get_template_fs rt env tpl w0 w Hfs0).
    destruct He as [-> | (t & -> & ->)]; reflexivity. }
  split.
  - intros e He. exists w0. now rewrite (Hfail e He).
  - intros ev Hin Hold Hne.
    destruct (get_template rt env tpl w).1 as [t | e] eqn:Ht.
    + destruct (template_render rt env t ctx) as [text | e] eqn:Hr.
      * now exists t, text.
      * rewrite (Hfail e) in Hin by (right; now exists t).
        unfold w0 in Hin. cbn [snd log emit] in Hin. apply List.in_app_or in Hin as [Hin | [Hin | []]];
          [tauto | congruence].
    + rewrite (Hfail e) in Hin by now left.
      unfold w0 in Hin. cbn [snd log emit] in Hin. apply List.in_app_or in Hin as [Hin | [Hin | []]];
        [tauto | congruence].
Qed.

(** ** The events of a run *)

Lemma only_fs_events_same {A} (m : M A) :
  (forall w, (m w).2 = w) -> only_fs_events m.
Proof.
  intros Hm w. exists []. rewrite Hm, app_nil_r. split; [reflexivity | constructor].
Qed.

Lemma only_fs_events_bind {A B} (m : M A) (k : A -> M B) :
  only_fs_events m -> (forall a, only_fs_events (k a)) -> only_fs_events (bind m k).
Proof.
  intros Hm Hk w. unfold bind. destruct (Hm w) as (evs1 & Hl1 & Hf1).
  destruct (m w) as [[a | e] w1]; cbn [snd] in *.
  - destruct (Hk a w1) as (evs2 & Hl2 & Hf2). exists (evs1 ++ evs2).
    rewrite Hl2, Hl1, app_assoc. split; [reflexivity | now apply List.Forall_app].
  - now exists evs1.
Qed.

Lemma os_mkdir_events (p : path) : only_fs_events (os_mkdir p).
Proof.
  intros w. unfold os_mkdir.
  destruct (is_anchor p); [|destruct (under_file (fs w) p);
    [|destruct (negb (is_dir (fs w) (parent p))); [|destruct (fs w !! p)]]];
    try (exists []; rewrite app_nil_r; split; [reflexivity | constructor]).
  exists [MadeDir p]. split; [reflexivity | now repeat constructor].
Qed.

Lemma mkdir_leaf_events (exist_ok : bool) (p : path) : only_fs_events (mkdir_leaf exist_ok p).
Proof.
  intros w. unfold mkdir_leaf. destruct (os_mkdir_events p w) as (evs & Hl & Hf).
  destruct (os_mkdir p w) as [[u | e] w1]; cbn [snd] in *; [now exists evs|].
  destruct e; try (now exists evs);
    destruct (negb exist_ok || negb (is_dir (fs w1) p)); now exists evs.
Qed.

Lemma mkdir_parents_events (p : path) :
  forall exist_ok, only_fs_events (mkdir_parents exist_ok p).
Proof.
  induction p as [|x q IH]; intros exist_ok w; rewrite mkdir_parents_eq;
    match goal with |- context [os_mkdir ?p0 w] =>
      destruct (os_mkdir_events p0 w) as (evs & Hl & Hf);
      destruct (os_mkdir p0 w) as [[u | e] w1]
    end; cbn [snd] in *; try (now exists evs).
  - destruct e; try (now exists evs);
      destruct (negb exist_ok || negb (is_dir (fs w1) [])); now exists evs.
  - destruct e;
      try (destruct (negb exist_ok || negb (is_dir (fs w1) (x :: q))); now exists evs).
    destruct (bool_decide (parent (x :: q) = x :: q)); [now exists evs|].
    destruct (only_fs_events_bind (mkdir_parents true q)
                (fun _ => mkdir_leaf exist_ok (x :: q)) (IH true)
                (fun _ => mkdir_leaf_events exist_ok (x :: q)) w1) as (evs2 & Hl2 & Hf2).
    exists (evs ++ evs2). rewrite Hl2, Hl, app_assoc.
    split; [reflexivity | now apply List.Forall_app].
Qed.

Lemma write_text_events (p : path) (text : str) : only_fs_events (write_text p text).
Proof.
  intros w. unfold write_text.
  destruct (is_anchor p); [|destruct (under_file (fs w) p);
    [|destruct (negb (is_dir (fs w) (parent p)));
      [|destruct (fs w !! p) as [[|mode old]|]; [|destruct (writable mode)|]]]];
    try (exists []; rewrite app_nil_r; split; [reflexivity | constructor]);
    exists [Wrote p text]; (split; [reflexivity | now repeat constructor]).
Qed.

Lemma get_template_same_world (rt : Runtime) (env : Environment) (tpl : str) (w : world) :
  (get_template rt env tpl w).2 = w.
Proof. now rewrite (get_template_fs rt env tpl w w). Qed.

(** A run of [render] enters [render] once, at its start. *)
Lemma render_events (rt : Runtime) (env : Environment) (tpl : str)
    (ctx : gmap str value) (out : str) (w : world) :
  exists evs,
    log (render rt env tpl ctx out w).2 = log w ++ CalledRender tpl ctx out :: evs
    /\ List.Forall (fun ev => fs_event ev = true) evs.
Proof.
  unfold render. unfold bind at 1.
  set (w0 := emit w (CalledRender tpl ctx out)).
  match goal with |- context [bind ?m ?k w0] =>
    assert (only_fs_events (bind m k)) as Hrest end.
  { apply only_fs_events_bind; [apply only_fs_events_same, get_template_same_world|].
    intros t. apply only_fs_events_bind; [now apply only_fs_events_same|].
    intros text. apply only_fs_events_bind; [apply mkdir_parents_events|].
    intros _. apply write_text_events. }
  destruct (Hrest w0) as (evs & Hl & Hf). exists evs.
  rewrite Hl. unfold w0. cbn [log emit]. now rewrite <- app_assoc.
Qed.

(** ** The run of the script *)

Lemma script_ctx_dict_or (raw : value) (spec : str) :
  dict_or (<[ustr "spec" := raw]> (<[ustr "source_path" := VStr spec]> ∅))
          (<[ustr "java_package" := VStr java_package]> ∅)
  = script_ctx raw spec.
Proof.
  unfold dict_or, script_ctx.
  rewrite (insert_empty (ustr "java_package")), <- insert_union_singleton_l.
  rewrite (insert_insert_ne _ (ustr "java_package") (ustr "spec")) by discriminate.
  rewrite (insert_insert_ne _ (ustr "java_package") (ustr "source_path")) by discriminate.
  reflexivity.
Qed.

Lemma script_ctx_keys (raw : value) (spec : str) :
  dom (script_ctx raw spec)
    = ({[ustr "spec"; ustr "source_path"; ustr "java_package"]} : gset (list N))
  /\ size (script_ctx raw spec) = 3%nat
  /\ script_ctx raw spec !! ustr "spec" = Some raw
  /\ script_ctx raw spec !! ustr "source_path" = Some (VStr spec)
  /\ script_ctx raw spec !! ustr "java_package" = Some (VStr java_package).
Proof.
  unfold script_ctx. split_and!.
  - rewrite !dom_insert_L, dom_empty_L. set_solver.
  - rewrite !map_size_insert_None, map_size_empty; [reflexivity | ..].
    + apply lookup_empty.
    + now rewrite lookup_insert_ne by discriminate.
    + now rewrite !lookup_insert_ne by discriminate.
  - apply lookup_insert_eq.
  - rewrite lookup_insert_ne by discriminate. apply lookup_insert_eq.
  - rewrite !lookup_insert_ne by discriminate. apply lookup_insert_eq.
Qed.

(** The script, step by step: the option, the file, the document, and
    then [render] with the context of three entries. *)
Lemma main_eq (rt : Runtime) (argv : list str) (w : world) :
  main rt argv w =
  match argparse_spec rt (ustr "sdk-spec.yaml") argv with
  | Raise e => (Raise e, w)
  | Ok spec =>
      match (read_text (Path spec) w).1 with
      | Raise e => (Raise e, w)
      | Ok text =>
          match yaml_safe_load rt text with
          | Raise e => (Raise e, w)
          | Ok raw => render rt script_env template_name (script_ctx raw spec) output_name w
          end
      end
  end.
Proof.
  unfold main, load_spec, bind, lift, ret.
  destruct (argparse_spec rt (ustr "sdk-spec.yaml") argv) as [spec | e]; [|reflexivity].
  pose proof (read_text_same_world (Path spec) w) as Hw.
  destruct (read_text (Path spec) w) as [[text | e] w1]; cbn [fst] in *;
    injection Hw as ->; [|reflexivity].
  destruct (yaml_safe_load rt text) as [raw | e]; [|reflexivity].
  now rewrite script_ctx_dict_or.
Qed.

(** C4: whenever the script enters [render], the context it passes holds
    the parsed document under 'spec', the path of the specification file as
    a string under 'source_path' and the package name under 'java_package',
    and has no other key. *)
Theorem render_context_three_keys (rt : Runtime) (argv : list str) (w : world) :
  log (main rt argv w).2 = log w
  \/ exists spec text raw evs,
       argparse_spec rt (ustr "sdk-spec.yaml") argv = Ok spec
       /\ file_data (fs w) (Path spec) = Some text
       /\ yaml_safe_load rt text = Ok raw
       /\ log (main rt argv w).2
          = log w ++ CalledRender template_name (script_ctx raw spec) output_name :: evs
       /\ List.Forall (fun ev => fs_event ev = true) evs
       /\ dom (script_ctx raw spec)
          = ({[ustr "spec"; ustr "source_path"; ustr "java_package"]} : gset (list N))
       /\ size (script_ctx raw spec) = 3%nat
       /\ script_ctx raw spec !! ustr "spec" = Some raw
       /\ script_ctx raw spec !! ustr "source_path" = Some (VStr spec)
       /\ script_ctx raw spec !! ustr "java_package" = Some (VStr java_package).
Proof.
  rewrite main_eq.
  destruct (argparse_spec rt (ustr "sdk-spec.yaml") argv) as [spec | e]; [|now left].
  destruct (read_text (Path spec) w) as [[text | e] w1] eqn:Hr; cbn [fst]; [|now left].
  apply read_text_inv in Hr as [Hdata _].
  destruct (yaml_safe_load rt text) as [raw | e] eqn:Hy; [|now left].
  right.
  destruct (render_events rt script_env template_name (script_ctx raw spec) output_name w)
    as (evs & Hl & Hf).
  destruct (script_ctx_keys raw spec) as (Hdom & Hsize & H1 & H2 & H3).
  exists spec, text, raw, evs. split_and!; auto.
Qed.

(** C7: if the file named by [--spec] is not there, or cannot be read, the
    script ends with an error and the world is as it was: [render] was not
    entered, no directory was made and nothing was written. *)
Theorem missing_spec_stops_run (rt : Runtime) (argv : list str) (w : world) (spec : str) :
  argparse_spec rt (ustr "sdk-spec.yaml") argv = Ok spec ->
  (fs w !! Path spec = None
   \/ exists mode data, fs w !! Path spec = Some (File mode data) /\ readable mode = false) ->
  exists e,
    main rt argv w = (Raise e, w)
    /\ In e [FileNotFoundError; NotADirectoryError; IsADirectoryError; PermissionError].
Proof.
  intros Hargs Hspec. rewrite main_eq, Hargs. unfold read_text.
  destruct (is_anchor (Path spec)).
  { exists IsADirectoryError. cbn. tauto. }
  destruct Hspec as [-> | (mode & data & -> & ->)].
  - destruct (under_file (fs w) (Path spec)).
    + exists NotADirectoryError. cbn. tauto.
    + exists FileNotFoundError. cbn. tauto.
  - exists PermissionError. cbn. tauto.
Qed.



Lemma script_template_file :
  split_template_path template_name = Ok [ustr "SdkSpec.java.j2"]
  /\ template_file script_env [ustr "SdkSpec.java.j2"] = template_path
  /\ Path output_name = output_path.
Proof. split_and!; reflexivity. Qed.



Lemma new_context_helper (vars : gmap str value) :
  vars !! ustr "java_const" = None ->
  new_context script_env vars !! ustr "java_const" = Some (Func JavaConst).
Proof.
  intros Hv. unfold new_context. rewrite lookup_union, lookup_fmap, Hv. reflexivity.
Qed.

Lemma new_context_var (env : Environment) (vars : gmap str value) (x : str) (v : value) :
  vars !! x = Some v -> new_context env vars !! x = Some (Data v).
Proof.
  intros Hv. unfold new_context. rewrite lookup_union, lookup_fmap, Hv.
  cbn. now destruct (globals env !! x).
Qed.






(** ** Undefined names *)










(** With Jinja2's default class the same substitution is the empty
    string. *)
Example default_undefined_is_blank (rt : Runtime) :
  render_nodes rt
    (new_Environment (FileSystemLoader (ustr ".")) true true Undefined) ∅
    [TemplateData (ustr "v"); Output (Name (ustr "version"))]
  = Ok (ustr "v").
Proof. reflexivity. Qed.


(** The helper is bound among the globals of the environment, so a template
    that calls it is rendered although the context passed to [render] does
    not hold it. *)
Example helper_is_a_global :
  demo_ctx !! ustr "java_const" = None
  /\ globals script_env !! ustr "java_const" = Some (Func JavaConst)
  /\ (render demo_rt script_env template_name demo_ctx output_name helper_world).1 = Ok tt
  /\ file_data
        (fs (render demo_rt script_env template_name demo_ctx output_name helper_world).2)
        output_path
      = Some (ustr "SEMANTIC_CONV_NAME").
Proof. split_and!; vm_compute; reflexivity. Qed.

(** A name in the position of the callee is used as well: [{{ version() }}]
    raises. *)
Example callee_undefined_raises (rt : Runtime) :
  exists err,
    template_render rt script_env [Output (Call (Name (ustr "version")) [])] demo_ctx
    = Raise err.
Proof. exists (UndefinedError (ustr "version")). vm_compute. reflexivity. Qed.

(** ** The properties on concrete runs *)

Lemma demo_world_wf (spec_text tpl_text : str) : wf (fs (demo_world spec_text tpl_text)).
Proof.
  intros p n. unfold demo_world. cbn [fs].
  rewrite lookup_insert. destruct (decide ([ustr "sdk-spec.yaml"] = p)) as [<- | _].
  { intros _. split; reflexivity. }
  rewrite lookup_insert. destruct (decide ([ustr "SdkSpec.java.j2"] = p)) as [<- | _].
  { intros _. split; reflexivity. }
  rewrite lookup_empty. discriminate.
Qed.


Lemma render_error_before_write_witness :
  (get_template demo_rt script_env template_name version_world).1
    = Ok [TemplateData (ustr "v"); Output (Name (ustr "version"))]
  /\ template_render demo_rt script_env
       [TemplateData (ustr "v"); Output (Name (ustr "version"))] demo_ctx
     = Raise (UndefinedError (ustr "version"))
  /\ exists w',
       render demo_rt script_env template_name demo_ctx output_name version_world
       = (Raise (UndefinedError (ustr "version")), w')
       /\ fs w' = fs version_world
       /\ log w' = log version_world ++ [CalledRender template_name demo_ctx output_name].
Proof.
  assert ((get_template demo_rt script_env template_name version_world).1
          = Ok [TemplateData (ustr "v"); Output (Name (ustr "version"))]) as Ht
    by (vm_compute; reflexivity).
  assert (template_render demo_rt script_env
            [TemplateData (ustr "v"); Output (Name (ustr "version"))] demo_ctx
          = Raise (UndefinedError (ustr "version"))) as Hr
    by (vm_compute; reflexivity).
  split_and!; [exact Ht | exact Hr |].
  apply (proj1 (render_error_before_write demo_rt script_env template_name demo_ctx
                  output_name version_world)).
  right. eexists. split; [exact Ht | exact Hr].
Defined.

Lemma render_writes_output_witness :
  wf (fs package_world)
  /\ under_file (fs package_world) (Path output_name) = false
  /\ fs package_world !! Path output_name = None
  /\ fs package_world !! [ustr "out"] = None
  /\ exists w' dirs,
       render demo_rt script_env template_name demo_ctx output_name package_world
       = (Ok tt, w')
       /\ file_data (fs w') (Path output_name) = Some (ustr "package com.braintrust.semconv;")
       /\ List.Forall (fun q => is_dir (fs w') q = true) (ancestors (Path output_name))
       /\ log w' = log package_world
                     ++ CalledRender template_name demo_ctx output_name
                        :: List.map MadeDir dirs
                        ++ [Wrote (Path output_name) (ustr "package com.braintrust.semconv;")].
Proof.
  assert (under_file (fs package_world) (Path output_name) = false) as Hu
    by (vm_compute; reflexivity).
  assert (fs package_world !! Path output_name = None) as Hn by (vm_compute; reflexivity).
  split_and!; [apply demo_world_wf | exact Hu | exact Hn | vm_compute; reflexivity |].
  destruct (render_writes_output demo_rt script_env template_name demo_ctx output_name
              package_world
              [TemplateData (ustr "package "); Output (Name (ustr "java_package"));
               TemplateData (ustr ";")]
              (ustr "package com.braintrust.semconv;"))
    as (w' & dirs & Hrun & Hdata & Hdirs & _ & Hlog & _ & _);
    [apply demo_world_wf | vm_compute; reflexivity | vm_compute; reflexivity
    | reflexivity | exact Hu | left; exact Hn |].
  exists w', dirs. split_and!; [exact Hrun | exact Hdata | exact Hdirs | exact Hlog].
Defined.




Lemma missing_spec_stops_run_witness :
  argparse_spec demo_rt (ustr "sdk-spec.yaml") [ustr "--spec"; ustr "nonexistent.yaml"]
    = Ok (ustr "nonexistent.yaml")
  /\ fs package_world !! Path (ustr "nonexistent.yaml") = None
  /\ exists e,
       main demo_rt [ustr "--spec"; ustr "nonexistent.yaml"] package_world
       = (Raise e, package_world)
       /\ In e [FileNotFoundError; NotADirectoryError; IsADirectoryError; PermissionError].
Proof.
  assert (fs package_world !! Path (ustr "nonexistent.yaml") = None) as Hn
    by (vm_compute; reflexivity).
  split_and!; [reflexivity | exact Hn |].
  apply (missing_spec_stops_run demo_rt _ package_world (ustr "nonexistent.yaml"));
    [reflexivity | left; exact Hn].
Defined.


(** A file that holds the null scalar and a line end is read the same way,
    whatever the loader makes of other documents. *)
Example null_scalar_document (rt : Runtime) :
  exists d,
    load_spec rt (ustr "sdk-spec.yaml") null_spec_world = (Ok d, null_spec_world)
    /\ d !! ustr "spec" = Some VNone.
Proof.
  eexists. split; vm_compute; reflexivity.
Qed.

Lemma render_context_three_keys_witness :
  exists spec text raw evs,
    argparse_spec demo_rt (ustr "sdk-spec.yaml") [] = Ok spec
    /\ file_data (fs package_world) (Path spec) = Some text
    /\ yaml_safe_load demo_rt text = Ok raw
    /\ log (main demo_rt [] package_world).2
       = log package_world
           ++ CalledRender template_name (script_ctx raw spec) output_name :: evs
    /\ dom (script_ctx raw spec)
       = ({[ustr "spec"; ustr "source_path"; ustr "java_package"]} : gset (list N)).
Proof.
  destruct (render_context_three_keys demo_rt [] package_world)
    as [Hsame | (spec & text & raw & evs & Ha & Hd & Hy & Hl & _ & Hdom & _)].
  - vm_compute in Hsame. discriminate Hsame.
  - exists spec, text, raw, evs. split_and!; assumption.
Defined.

(** A failure after rendering: with a regular file at [out], the template
    is rendered and [mkdir] then raises; nothing is made or written. *)
Example mkdir_blocked_by_file :
  main demo_rt [] blocked_world
  = (Raise NotADirectoryError,
     emit blocked_world (CalledRender template_name demo_ctx output_name)).
Proof. vm_compute. reflexivity. Qed.

(** Overwriting: the second run replaces the file the first one wrote. *)
Example second_run_overwrites :
  file_data (fs after_first_run) output_path = Some (ustr "package com.braintrust.semconv;")
  /\ log (main demo_rt [] after_first_run).2
     = log after_first_run
         ++ [CalledRender template_name demo_ctx output_name;
             Wrote output_path (ustr "package com.braintrust.semconv;")].
Proof. split; vm_compute; reflexivity. Qed.

(** * Further properties of the script *)

(** ** [java_const] *)

Lemma underscore_punct_not_separator (c : N) :
  underscore_punct c <> hyphen /\ underscore_punct c <> period.
Proof.
  unfold underscore_punct, hyphen, period, underscore.
  split_cmp; split; lia.
Qed.

(** X1: the result of [java_const] holds no hyphen and no period, whatever
    the input. *)
Theorem java_const_no_separators (tbl : N -> list N) (s : str) :
  ~ In hyphen (java_const tbl s) /\ ~ In period (java_const tbl s).
Proof.
  rewrite java_const_map.
  split; intros Hin; apply List.in_map_iff in Hin as (c & Hc & _);
    destruct (underscore_punct_not_separator c); congruence.
Qed.

(** Every code point of a result of [java_const] is its own uppercase. *)
Lemma java_const_chars_fixed (tbl : N -> list N) (Hs : upper_stable tbl) (s : str) :
  List.Forall (fun d => PyStr.to_upper tbl d = [d]) (java_const tbl s).
Proof.
  rewrite java_const_map. apply List.Forall_forall. intros d Hd.
  apply List.in_map_iff in Hd as (d' & <- & Hd').
  apply List.in_flat_map in Hd' as (c & _ & Hc).
  unfold PyStr.to_upper in Hc.
  destruct (N.ltb_spec c 128) as [Hlt | Hge].
  - destruct Hc as [<- | []].
    unfold PyStr.to_upper, underscore_punct, PyStr.ascii_upper,
      hyphen, period, underscore.
    split_cmp; try reflexivity; lia.
  - pose proof (Hs c d' Hge Hc) as Hfix.
    unfold underscore_punct, hyphen, period, underscore.
    split_cmp; try reflexivity; exact Hfix.
Qed.

(** X2: the result of [java_const] holds no lowercase letter of the ASCII
    range, also where the uppercase mapping of a code point outside that
    range brings in ASCII letters. *)
Theorem java_const_no_lowercase (tbl : N -> list N) (Hs : upper_stable tbl)
    (s : str) (c : N) :
  In c (java_const tbl s) -> is_lower_letter c = false.
Proof.
  intros Hin.
  pose proof (proj1 (List.Forall_forall _ _) (java_const_chars_fixed tbl Hs s) c Hin) as Hfix.
  revert Hfix. unfold PyStr.to_upper, PyStr.ascii_upper, is_lower_letter.
  split_cmp; intros Hfix; try reflexivity; try lia.
  injection Hfix as Hfix. lia.
Qed.

Lemma java_const_no_lowercase_witness :
  upper_stable latin1_upper
  /\ In 83 (java_const latin1_upper [223])
  /\ is_lower_letter 83 = false.
Proof.
  split_and!; [exact latin1_upper_stable | left; reflexivity |].
  apply (java_const_no_lowercase latin1_upper latin1_upper_stable [223] 83).
  left. reflexivity.
Defined.

(** X3: [java_const] of a concatenation is the concatenation of the
    results. *)
Theorem java_const_app (tbl : N -> list N) (s t : str) :
  java_const tbl (s ++ t) = java_const tbl s ++ java_const tbl t.
Proof.
  rewrite !java_const_map. unfold PyStr.upper.
  now rewrite List.flat_map_app, List.map_app.
Qed.

(** X4: hyphen, period and underscore are one to [java_const]: replacing
    the hyphens and periods of the input by underscores beforehand changes
    nothing, so that names which differ only in these have the same
    constant. *)
Theorem java_const_separators_collapse (tbl : N -> list N) (s : str) :
  java_const tbl (List.map underscore_punct s) = java_const tbl s.
Proof.
  rewrite !java_const_flat_map.
  induction s as [|c s IH]; [reflexivity|].
  cbn [List.map flat_map]. rewrite IH. f_equal.
  rewrite !java_const_one.
  unfold underscore_punct at 2. unfold hyphen, period, underscore.
  destruct (N.eqb_spec c 45) as [-> | H1]; [reflexivity|].
  destruct (N.eqb_spec c 46) as [-> | H2]; reflexivity.
Qed.

(** The uppercase of an uppercased string is that string. *)
Lemma upper_idempotent (tbl : N -> list N) (Hs : upper_stable tbl) (s : str) :
  PyStr.upper tbl (PyStr.upper tbl s) = PyStr.upper tbl s.
Proof.
  apply flat_map_singletons. apply List.Forall_forall. intros d Hd.
  apply List.in_flat_map in Hd as (c & _ & Hc).
  unfold PyStr.to_upper in Hc.
  destruct (N.ltb_spec c 128) as [Hlt | Hge].
  - destruct Hc as [<- | []].
    unfold PyStr.to_upper, PyStr.ascii_upper. split_cmp; try reflexivity; lia.
  - exact (Hs c d Hge Hc).
Qed.

(** X5: [java_const] does not see the case of its input: on the
    uppercased name it gives what it gives on the name. *)
Theorem java_const_ignores_case (tbl : N -> list N) (Hs : upper_stable tbl) (s : str) :
  java_const tbl (PyStr.upper tbl s) = java_const tbl s.
Proof.
  rewrite (java_const_map tbl (PyStr.upper tbl s)), java_const_map.
  now rewrite upper_idempotent.
Qed.

Lemma java_const_ignores_case_witness :
  upper_stable latin1_upper
  /\ java_const latin1_upper (PyStr.upper latin1_upper (ustr "semantic-conv.name"))
     = java_const latin1_upper (ustr "semantic-conv.name").
Proof.
  split; [exact latin1_upper_stable|].
  apply (java_const_ignores_case latin1_upper latin1_upper_stable).
Defined.

(** X6: a name already in constant form, made of capital letters, digits
    and underscores, is returned as it is. *)
Theorem java_const_constant_form (tbl : N -> list N) (s : str) :
  List.Forall (fun c => is_constant_char c = true) s -> java_const tbl s = s.
Proof.
  intros Hs. rewrite java_const_ascii.
  - rewrite <- (List.map_id s) at 2. apply List.map_ext_in. intros c Hc.
    pose proof (proj1 (List.Forall_forall _ _) Hs c Hc) as Hcc. revert Hcc.
    unfold is_constant_char, is_upper_letter, is_digit, underscore_punct,
      PyStr.ascii_upper, hyphen, period, underscore.
    split_cmp; intros; try discriminate; try reflexivity; lia.
  - eapply List.Forall_impl; [|exact Hs]. cbn beta. intros c.
    unfold is_constant_char, is_upper_letter, is_digit, underscore.
    split_cmp; intros; try discriminate; lia.
Qed.

Lemma java_const_constant_form_witness :
  List.Forall (fun c => is_constant_char c = true) (ustr "SEMANTIC_CONV_NAME")
  /\ java_const latin1_upper (ustr "SEMANTIC_CONV_NAME") = ustr "SEMANTIC_CONV_NAME".
Proof.
  assert (List.Forall (fun c => is_constant_char c = true) (ustr "SEMANTIC_CONV_NAME")) as H
    by (repeat constructor).
  split; [exact H | exact (java_const_constant_form latin1_upper _ H)].
Defined.

(** ** [load_spec] *)

(** X7: [load_spec] only reads.  It returns a mapping exactly when the
    path names a readable regular file whose text the YAML loader accepts,
    and the mapping then holds the document under 'spec' and the path, as it
    was given, under 'source_path'; whether it returns or raises, the world
    is as it was. *)
Theorem load_spec_returns_iff (rt : Runtime) (path : str) (w w' : world)
    (d : gmap str value) :
  (load_spec rt path w).2 = w
  /\ (load_spec rt path w = (Ok d, w')
      <-> w' = w
          /\ exists mode text raw,
               is_anchor (Path path) = false
               /\ fs w !! Path path = Some (File mode text)
               /\ readable mode = true
               /\ yaml_safe_load rt text = Ok raw
               /\ d = <[ustr "spec" := raw]> (<[ustr "source_path" := VStr path]> ∅)).
Proof.
  unfold load_spec, bind, lift, ret, read_text.
  destruct (is_anchor (Path path)) eqn:Ha.
  { split; [reflexivity|]. split; [discriminate|].
    intros (_ & mode & text & raw & Hf & _). discriminate Hf. }
  destruct (fs w !! Path path) as [[|mode text]|] eqn:Hl.
  - split; [reflexivity|]. split; [discriminate|].
    intros (_ & mode & text & raw & _ & Hf & _). discriminate Hf.
  - destruct (readable mode) eqn:Hr.
    + destruct (yaml_safe_load rt text) as [raw | e] eqn:Hy.
      * split; [reflexivity|]. split.
        -- intros [= <- <-]. split; [reflexivity|]. now exists mode, text, raw.
        -- intros (-> & mode' & text' & raw' & _ & [= <- <-] & _ & Hy' & ->).
           rewrite Hy in Hy'. now injection Hy' as <-.
      * split; [reflexivity|]. split; [discriminate|].
        intros (_ & mode' & text' & raw' & _ & [= <- <-] & _ & Hy' & _).
        rewrite Hy in Hy'. discriminate Hy'.
    + split; [reflexivity|]. split; [discriminate|].
      intros (_ & mode' & text' & raw' & _ & [= <- <-] & Hr' & _).
      rewrite Hr in Hr'. discriminate Hr'.
  - split.
    + destruct (under_file (fs w) (Path path)); reflexivity.
    + split.
      * destruct (under_file (fs w) (Path path)); discriminate.
      * intros (_ & mode & text & raw & _ & Hf & _). discriminate Hf.
Qed.

(** ** What a run leaves alone *)

Lemma made_dirs_refl (S : list path) (f : gmap path inode) : made_dirs S f f.
Proof. intros q. now left. Qed.

Lemma made_dirs_trans (S : list path) (f1 f2 f3 : gmap path inode) :
  made_dirs S f1 f2 -> made_dirs S f2 f3 -> made_dirs S f1 f3.
Proof.
  intros H12 H23 q.
  destruct (H12 q) as [E12 | (N1 & D2 & Hin)], (H23 q) as [E23 | (N2 & D3 & Hin')].
  - left. congruence.
  - right. split_and!; [congruence | exact D3 | exact Hin'].
  - right. split_and!; [exact N1 | congruence | exact Hin].
  - congruence.
Qed.

Lemma made_dirs_mono (S S' : list path) (f f' : gmap path inode) :
  (forall q, In q S -> In q S') -> made_dirs S f f' -> made_dirs S' f f'.
Proof.
  intros Hsub H q. destruct (H q) as [E | (N1 & D & Hin)]; [now left|].
  right. split_and!; auto.
Qed.

Lemma os_mkdir_made_dirs (p : path) (w : world) :
  made_dirs [p] (fs w) (fs (os_mkdir p w).2).
Proof.
  unfold os_mkdir.
  destruct (is_anchor p); [apply made_dirs_refl|].
  destruct (under_file (fs w) p); [apply made_dirs_refl|].
  destruct (negb (is_dir (fs w) (parent p))); [apply made_dirs_refl|].
  destruct (fs w !! p) eqn:Hl; [apply made_dirs_refl|].
  cbn [snd fs emit set_fs]. intros q. destruct (decide (p = q)) as [<- | Hne].
  - right. split_and!; [exact Hl | apply lookup_insert_eq | now left].
  - left. now apply lookup_insert_ne.
Qed.

Lemma mkdir_leaf_made_dirs (exist_ok : bool) (p : path) (w : world) :
  made_dirs [p] (fs w) (fs (mkdir_leaf exist_ok p w).2).
Proof.
  unfold mkdir_leaf. pose proof (os_mkdir_made_dirs p w) as H.
  destruct (os_mkdir p w) as [[u | e] w1]; cbn [snd] in *; [exact H|].
  destruct e; try exact H;
    destruct (negb exist_ok || negb (is_dir (fs w1) p)); exact H.
Qed.

Lemma mkdir_parents_made_dirs (p : path) : forall (exist_ok : bool) (w : world),
  made_dirs (p :: ancestors p) (fs w) (fs (mkdir_parents exist_ok p w).2).
Proof.
  induction p as [|x q IH]; intros exist_ok w; rewrite mkdir_parents_eq;
    match goal with |- context [os_mkdir ?p0 w] =>
      pose proof (made_dirs_mono [p0] (p0 :: ancestors p0) _ _
                    (fun r Hr => match Hr with
                                 | or_introl E => or_introl E
                                 | or_intror F => match F with end
                                 end)
                    (os_mkdir_made_dirs p0 w)) as H;
      destruct (os_mkdir p0 w) as [[u | e] w1]
    end; cbn [snd] in *; try exact H.
  - destruct e; try exact H;
      destruct (negb exist_ok || negb (is_dir (fs w1) [])); exact H.
  - destruct e;
      try (destruct (negb exist_ok || negb (is_dir (fs w1) (x :: q))); exact H).
    destruct (bool_decide (parent (x :: q) = x :: q)); [exact H|].
    unfold bind. specialize (IH true w1).
    destruct (mkdir_parents true q w1) as [[u | e] w2]; cbn [snd] in *.
    + pose proof (mkdir_leaf_made_dirs exist_ok (x :: q) w2) as H2.
      eapply made_dirs_trans; [exact H|].
      eapply made_dirs_trans.
      * eapply made_dirs_mono; [|exact IH]. intros r Hr. right. exact Hr.
      * eapply made_dirs_mono; [|exact H2]. intros r [<- | []]. now left.
    + eapply made_dirs_trans; [exact H|].
      eapply made_dirs_mono; [|exact IH]. intros r Hr. right. exact Hr.
Qed.

Lemma wrote_only_of_made_dirs (outp : path) (f f' : gmap path inode) :
  made_dirs (ancestors outp) f f' -> wrote_only outp f f'.
Proof.
  intros H q. destruct (H q) as [E | (N1 & D & Hin)]; [now left|].
  right. left. now split_and!.
Qed.

Lemma write_text_wrote_only (outp : path) (text : str) (f : gmap path inode) (w : world) :
  made_dirs (ancestors outp) f (fs w) ->
  wrote_only outp f (fs (write_text outp text w).2).
Proof.
  intros H. unfold write_text.
  destruct (is_anchor outp); [now apply wrote_only_of_made_dirs|].
  destruct (under_file (fs w) outp); [now apply wrote_only_of_made_dirs|].
  destruct (negb (is_dir (fs w) (parent outp))); [now apply wrote_only_of_made_dirs|].
  assert (forall n, fs w !! outp = n -> n <> Some Dir -> f !! outp <> Some Dir) as Hold.
  { intros n Hn Hnd Hf. destruct (H outp) as [E | (N1 & _)]; congruence. }
  assert (forall mode, f !! outp <> Some Dir ->
             wrote_only outp f (<[outp := File mode text]> (fs w))) as Hnew.
  { intros mode Hd q. destruct (decide (outp = q)) as [<- | Hne].
    - right. right. split_and!; [reflexivity | exact Hd |].
      exists mode, text. apply lookup_insert_eq.
    - rewrite lookup_insert_ne by exact Hne.
      destruct (H q) as [E | (N1 & D & Hin)]; [now left|].
      right. left. now split_and!. }
  destruct (fs w !! outp) as [[|mode old]|] eqn:Hl.
  - now apply wrote_only_of_made_dirs.
  - destruct (writable mode); [|now apply wrote_only_of_made_dirs].
    cbn [snd fs emit set_fs]. apply Hnew. apply (Hold _ eq_refl). discriminate.
  - cbn [snd fs emit set_fs]. apply Hnew. apply (Hold _ eq_refl). discriminate.
Qed.

Lemma parent_anchor_eq (p : path) : is_anchor p = true -> parent p = p.
Proof. intros Ha. unfold parent. now rewrite Ha. Qed.

Lemma ancestors_parent (p : path) (q : path) :
  In q (parent p :: ancestors (parent p)) -> is_anchor p = false -> In q (ancestors p).
Proof.
  intros Hin Ha. destruct p as [|x p]; [discriminate Ha|].
  rewrite parent_cons in Hin by exact Ha. exact Hin.
Qed.

Lemma render_touches_only_output_aux (rt : Runtime) (env : Environment) (tpl : str)
    (ctx : gmap str value) (out : str) (w : world) :
  wrote_only (Path out) (fs w) (fs (render rt env tpl ctx out w).2).
Proof.
  unfold render.
 unfold bind at 1.
  set (w0 := emit w (CalledRender tpl ctx out)).
  unfold bind, lift.
  rewrite (get_template_fs rt env tpl w0 w) by reflexivity.
  destruct (get_template rt env tpl w).1 as [t | e];
    [|apply wrote_only_of_made_dirs, made_dirs_refl].
  destruct (template_render rt env t ctx) as [text | e];
    [|apply wrote_only_of_made_dirs, made_dirs_refl].
  cbn [mkdir].
  pose proof (mkdir_parents_made_dirs (parent (Path out)) true w0) as Hmk.
  destruct (is_anchor (Path out)) eqn:Ha.
  - (* nothing can be written at an anchor *)
    assert (forall w1, fs (write_text (Path out) text w1).2 = fs w1) as Hwr.
    { intros w1. unfold write_text. now rewrite Ha. }
    assert (fs (mkdir_parents true (parent (Path out)) w0).2 = fs w) as Hsame.
    { rewrite parent_anchor_eq by exact Ha. rewrite mkdir_parents_eq.
      unfold os_mkdir. rewrite Ha. cbn [negb orb].
      now rewrite (is_dir_anchor _ _ Ha). }
    destruct (mkdir_parents true (parent (Path out)) w0) as [[u | e] w1];
      cbn [snd] in *.
    + rewrite Hwr, Hsame. apply wrote_only_of_made_dirs, made_dirs_refl.
    + rewrite Hsame. apply wrote_only_of_made_dirs, made_dirs_refl.
  - assert (made_dirs (ancestors (Path out)) (fs w)
              (fs (mkdir_parents true (parent (Path out)) w0).2)) as Hmk'.
    { eapply made_dirs_mono; [|exact Hmk]. intros q Hq.
      now apply ancestors_parent. }
    destruct (mkdir_parents true (parent (Path out)) w0) as [[u | e] w1];
      cbn [snd] in *.
    + now apply write_text_wrote_only.
    + now apply wrote_only_of_made_dirs.
Qed.

(** X8: whatever a run of [render] does, and whether it returns or raises,
    the only entry of the file system it may overwrite is the output file;
    every other entry that was there is there unchanged, and what is new is
    a directory above the output path. *)
Theorem render_touches_only_output (rt : Runtime) (env : Environment) (tpl : str)
    (ctx : gmap str value) (out : str) (w : world) (q : path) :
  (q <> Path out ->
   forall n, fs w !! q = Some n -> fs (render rt env tpl ctx out w).2 !! q = Some n)
  /\ (fs w !! q = Some Dir -> fs (render rt env tpl ctx out w).2 !! q = Some Dir)
  /\ (fs w !! q = None ->
      fs (render rt env tpl ctx out w).2 !! q = None
      \/ (fs (render rt env tpl ctx out w).2 !! q = Some Dir
          /\ In q (ancestors (Path out)))
      \/ (q = Path out
          /\ exists mode text,
               fs (render rt env tpl ctx out w).2 !! q = Some (File mode text))).
Proof.
  destruct (render_touches_only_output_aux rt env tpl ctx out w q)
    as [E | [(N1 & D & Hin) | (Hout & Hnd & mode & text & Hf)]].
  - rewrite E. split_and!; auto.
  - split_and!; [congruence | congruence |]. intros _. right. left. now split.
  - split_and!; [congruence | congruence |]. intros _. right. right.
    split; [exact Hout | now exists mode, text].
Qed.


(** X9: a run of the script, however it ends, leaves every entry of the
    file system other than [out/java/SdkSpec.java] as it was, the
    specification file and the template among them, and adds nothing but
    that file and the directories above it. *)
Theorem main_touches_only_output (rt : Runtime) (argv : list str) (w : world) (q : path) :
  q <> output_path ->
  (forall n, fs w !! q = Some n -> fs (main rt argv w).2 !! q = Some n)
  /\ (fs w !! q = None -> ~ In q (ancestors output_path) ->
      fs (main rt argv w).2 !! q = None).
Proof.
  intros Hq.
  assert (wrote_only output_path (fs w) (fs (main rt argv w).2)) as H.
  { rewrite main_eq.
    destruct (argparse_spec rt (ustr "sdk-spec.yaml") argv) as [spec | e];
      [|apply wrote_only_of_made_dirs, made_dirs_refl].
    destruct (read_text (Path spec) w).1 as [text | e];
      [|apply wrote_only_of_made_dirs, made_dirs_refl].
    destruct (yaml_safe_load rt text) as [raw | e];
      [|apply wrote_only_of_made_dirs, made_dirs_refl].
    apply (render_touches_only_output_aux rt script_env template_name
             (script_ctx raw spec) output_name w). }
  destruct (H q) as [E | [(N1 & D & Hin) | (Hout & _)]]; split;
    try congruence; try tauto.
  all: intros; rewrite E; auto.
Qed.

Lemma main_touches_only_output_witness :
  [ustr "sdk-spec.yaml"] <> output_path
  /\ fs package_world !! [ustr "sdk-spec.yaml"]
     = Some (File default_perm (ustr "name: semantic-conv.name"))
  /\ fs (main demo_rt [] package_world).2 !! [ustr "sdk-spec.yaml"]
     = Some (File default_perm (ustr "name: semantic-conv.name")).
Proof.
  assert ([ustr "sdk-spec.yaml"] <> output_path) as Hne by discriminate.
  assert (fs package_world !! [ustr "sdk-spec.yaml"]
          = Some (File default_perm (ustr "name: semantic-conv.name"))) as Hl
    by (vm_compute; reflexivity).
  split_and!; [exact Hne | exact Hl |].
  exact (proj1 (main_touches_only_output demo_rt [] package_world _ Hne) _ Hl).
Defined.

(** ** The file system stays a tree *)

Lemma keeps_tree_same {A} (m : M A) : (forall w, fs (m w).2 = fs w) -> keeps_tree m.
Proof. intros Hm w Hwf. now rewrite Hm. Qed.

Lemma keeps_tree_bind {A B} (m : M A) (k : A -> M B) :
  keeps_tree m -> (forall a, keeps_tree (k a)) -> keeps_tree (bind m k).
Proof.
  intros Hm Hk w Hwf. unfold bind. specialize (Hm w Hwf).
  destruct (m w) as [[a | e] w1]; cbn [snd] in *; [now apply Hk | exact Hm].
Qed.

Lemma os_mkdir_keeps_tree (p : path) : keeps_tree (os_mkdir p).
Proof.
  intros w Hwf. unfold os_mkdir.
  destruct (is_anchor p) eqn:Ha; [exact Hwf|].
  destruct (under_file (fs w) p); [exact Hwf|].
  destruct (is_dir (fs w) (parent p)) eqn:Hd; cbn [negb]; [|exact Hwf].
  destruct (fs w !! p) eqn:Hl; [exact Hwf|].
  cbn [snd fs emit set_fs]. apply wf_insert; auto.
Qed.

Lemma mkdir_leaf_keeps_tree (exist_ok : bool) (p : path) : keeps_tree (mkdir_leaf exist_ok p).
Proof.
  intros w Hwf. unfold mkdir_leaf. pose proof (os_mkdir_keeps_tree p w Hwf) as H.
  destruct (os_mkdir p w) as [[u | e] w1]; cbn [snd] in *; [exact H|].
  destruct e; try exact H;
    destruct (negb exist_ok || negb (is_dir (fs w1) p)); exact H.
Qed.

Lemma mkdir_parents_keeps_tree (p : path) :
  forall exist_ok, keeps_tree (mkdir_parents exist_ok p).
Proof.
  induction p as [|x q IH]; intros exist_ok w Hwf; rewrite mkdir_parents_eq;
    match goal with |- context [os_mkdir ?p0 w] =>
      pose proof (os_mkdir_keeps_tree p0 w Hwf) as H;
      destruct (os_mkdir p0 w) as [[u | e] w1]
    end; cbn [snd] in *; try exact H.
  - destruct e; try exact H;
      destruct (negb exist_ok || negb (is_dir (fs w1) [])); exact H.
  - destruct e;
      try (destruct (negb exist_ok || negb (is_dir (fs w1) (x :: q))); exact H).
    destruct (bool_decide (parent (x :: q) = x :: q)); [exact H|].
    apply (keeps_tree_bind (mkdir_parents true q) (fun _ => mkdir_leaf exist_ok (x :: q)));
      [apply IH | intros _; apply mkdir_leaf_keeps_tree | exact H].
Qed.

Lemma write_text_keeps_tree (p : path) (text : str) : keeps_tree (write_text p text).
Proof.
  intros w Hwf. unfold write_text.
  destruct (is_anchor p) eqn:Ha; [exact Hwf|].
  destruct (under_file (fs w) p); [exact Hwf|].
  destruct (is_dir (fs w) (parent p)) eqn:Hd; cbn [negb]; [|exact Hwf].
  destruct (fs w !! p) as [[|mode old]|] eqn:Hl; [exact Hwf| |].
  - destruct (writable mode); [|exact Hwf].
    cbn [snd fs emit set_fs]. apply wf_insert; auto.
    right. now exists mode, old, mode, text.
  - cbn [snd fs emit set_fs]. apply wf_insert; auto.
Qed.

Lemma render_keeps_tree (rt : Runtime) (env : Environment) (tpl : str)
    (ctx : gmap str value) (out : str) : keeps_tree (render rt env tpl ctx out).
Proof.
  unfold render.
  apply keeps_tree_bind; [now apply keeps_tree_same|]. intros _.
  apply keeps_tree_bind.
  { apply keeps_tree_same. intros w. now rewrite get_template_same_world. }
  intros t. apply keeps_tree_bind; [now apply keeps_tree_same|].
  intros text. apply keeps_tree_bind; [apply mkdir_parents_keeps_tree|].
  intros _. apply write_text_keeps_tree.
Qed.


(** X10: run in a file system that is a tree, where every entry lies in a
    directory, the script leaves a tree, whether it returns or raises and
    however far it got. *)
Theorem main_keeps_tree (rt : Runtime) (argv : list str) (w : world) :
  wf (fs w) -> wf (fs (main rt argv w).2).
Proof.
  intros Hwf. rewrite main_eq.
  destruct (argparse_spec rt (ustr "sdk-spec.yaml") argv) as [spec | e]; [|exact Hwf].
  destruct (read_text (Path spec) w).1 as [text | e]; [|exact Hwf].
  destruct (yaml_safe_load rt text) as [raw | e]; [|exact Hwf].
  now apply render_keeps_tree.
Qed.

Lemma main_keeps_tree_witness :
  wf (fs package_world) /\ wf (fs (main demo_rt [] package_world).2).
Proof.
  split; [apply demo_world_wf|].
  apply (main_keeps_tree demo_rt [] package_world). apply demo_world_wf.
Defined.

(** ** Runs that fail after rendering *)

Lemma under_file_anchor (f : gmap path inode) (p : path) :
  is_anchor p = true -> under_file f p = false.
Proof.
  unfold is_anchor. intros Ha. apply orb_true_iff in Ha as [Ha | Ha];
    apply bool_decide_eq_true_1 in Ha; subst p; reflexivity.
Qed.

(** Where the directory is there, [mkdir(parents=True, exist_ok=True)]
    returns and changes nothing. *)
Lemma mkdir_parents_existing (p : path) (w : world) :
  wf (fs w) -> is_dir (fs w) p = true -> mkdir_parents true p w = (Ok tt, w).
Proof.
  intros Hwf Hd. rewrite mkdir_parents_eq. unfold os_mkdir.
  destruct (is_anchor p) eqn:Ha.
  { cbn [negb orb]. now rewrite Hd. }
  rewrite (wf_under_file _ _ Hwf Hd).
  pose proof Hd as Hd'. unfold is_dir in Hd'. rewrite Ha in Hd'. cbn [orb] in Hd'.
  destruct (fs w !! p) as [n|] eqn:Hl; [|discriminate Hd'].
  destruct (Hwf _ _ Hl) as [_ Hpar]. rewrite Hpar. cbn [negb orb].
  now rewrite Hd.
Qed.

Lemma render_after_rendering (rt : Runtime) (env : Environment) (tpl : str)
    (ctx : gmap str value) (out : str) (w : world) (t : list node) (text : str) :
  (get_template rt env tpl w).1 = Ok t ->
  template_render rt env t ctx = Ok text ->
  render rt env tpl ctx out w
  = (_ <- mkdir_parents true (parent (Path out)) ;; write_text (Path out) text)
      (emit w (CalledRender tpl ctx out)).
Proof.
  intros Ht Hr. unfold render. unfold bind at 1. unfold bind at 1. unfold lift.
  rewrite (get_template_fs rt env tpl _ w) by reflexivity.
  rewrite Ht. unfold bind at 1. now rewrite Hr.
Qed.

(** X11: a regular file where [render] needs a directory stops it after
    the template was rendered: with the file at the parent of the output
    path [mkdir] raises FileExistsError, with the file further up
    NotADirectoryError, and in both cases nothing is made or written. *)
Theorem render_blocked_by_file (rt : Runtime) (env : Environment) (tpl : str)
    (ctx : gmap str value) (out : str) (w : world) (t : list node) (text : str) :
  wf (fs w) ->
  (get_template rt env tpl w).1 = Ok t ->
  template_render rt env t ctx = Ok text ->
  is_anchor (Path out) = false ->
  (is_file (fs w) (parent (Path out)) = true ->
   render rt env tpl ctx out w
   = (Raise FileExistsError, emit w (CalledRender tpl ctx out)))
  /\ (under_file (fs w) (parent (Path out)) = true ->
      render rt env tpl ctx out w
      = (Raise NotADirectoryError, emit w (CalledRender tpl ctx out))).
Proof.
  intros Hwf Ht Hr Ha.
  rewrite (render_after_rendering rt env tpl ctx out w t text Ht Hr).
  set (w0 := emit w (CalledRender tpl ctx out)).
  set (q := parent (Path out)).
  unfold bind. rewrite mkdir_parents_eq. unfold os_mkdir.
  change (fs w0) with (fs w).
  split.
  - intros Hf. pose proof Hf as Hf'. unfold is_file in Hf'.
    destruct (is_anchor q) eqn:Haq; [discriminate Hf'|]. cbn [negb andb] in Hf'.
    destruct (fs w !! q) as [[|mode data]|] eqn:Hl; try discriminate Hf'.
    destruct (Hwf _ _ Hl) as [_ Hpar].
    assert (under_file (fs w) q = false) as Hu.
    { destruct q as [|y r]; [reflexivity|].
      rewrite parent_cons in Hpar by exact Haq. cbn [under_file].
      now rewrite (is_dir_not_file _ _ Hpar), (wf_under_file _ _ Hwf Hpar). }
    rewrite Hu, Hpar. cbn [negb orb].
    change (fs w0) with (fs w). unfold is_dir. now rewrite Haq, Hl.
  - intros Hu.
    destruct (is_anchor q) eqn:Haq.
    { now rewrite (under_file_anchor _ _ Haq) in Hu. }
    rewrite Hu. cbn [negb orb]. change (fs w0) with (fs w).
    destruct (is_dir (fs w) q) eqn:Hd; [|reflexivity].
    now rewrite (wf_under_file _ _ Hwf Hd) in Hu.
Qed.

Lemma render_blocked_by_file_witness :
  wf (fs blocked_world)
  /\ under_file (fs blocked_world) (parent (Path output_name)) = true
  /\ render demo_rt script_env template_name demo_ctx output_name blocked_world
     = (Raise NotADirectoryError,
        emit blocked_world (CalledRender template_name demo_ctx output_name)).
Proof.
  assert (wf (fs blocked_world)) as Hwf.
  { unfold blocked_world. cbn [fs]. apply wf_insert;
      [apply demo_world_wf | reflexivity | reflexivity | left; vm_compute; reflexivity]. }
  assert (under_file (fs blocked_world) (parent (Path output_name)) = true) as Hu
    by (vm_compute; reflexivity).
  split_and!; [exact Hwf | exact Hu |].
  apply (proj2 (render_blocked_by_file demo_rt script_env template_name demo_ctx
                  output_name blocked_world
                  [TemplateData (ustr "package "); Output (Name (ustr "java_package"));
                   TemplateData (ustr ";")]
                  (ustr "package com.braintrust.semconv;") Hwf
                  ltac:(vm_compute; reflexivity) ltac:(vm_compute; reflexivity)
                  ltac:(reflexivity))).
  exact Hu.
Defined.

(** X12: a directory at the output path, or a file there that may not be
    written, stops [render] at the write, with IsADirectoryError and
    PermissionError; the directories above are there already, so nothing
    has changed. *)
Theorem render_unwritable_output (rt : Runtime) (env : Environment) (tpl : str)
    (ctx : gmap str value) (out : str) (w : world) (t : list node) (text : str) :
  wf (fs w) ->
  (get_template rt env tpl w).1 = Ok t ->
  template_render rt env t ctx = Ok text ->
  (fs w !! Path out = Some Dir ->
   render rt env tpl ctx out w
   = (Raise IsADirectoryError, emit w (CalledRender tpl ctx out)))
  /\ (forall mode old,
        fs w !! Path out = Some (File mode old) -> writable mode = false ->
        render rt env tpl ctx out w
        = (Raise PermissionError, emit w (CalledRender tpl ctx out))).
Proof.
  intros Hwf Ht Hr.
  rewrite (render_after_rendering rt env tpl ctx out w t text Ht Hr).
  set (w0 := emit w (CalledRender tpl ctx out)).
  assert (forall n, fs w !! Path out = Some n ->
            mkdir_parents true (parent (Path out)) w0 = (Ok tt, w0)
            /\ is_anchor (Path out) = false
            /\ under_file (fs w) (Path out) = false
            /\ is_dir (fs w) (parent (Path out)) = true) as Hpre.
  { intros n Hl. destruct (Hwf _ _ Hl) as [Ha Hpar].
    split_and!; [now apply mkdir_parents_existing | exact Ha | | exact Hpar].
    destruct (Path out) as [|x q]; [reflexivity|].
    rewrite parent_cons in Hpar by exact Ha. cbn [under_file].
    now rewrite (is_dir_not_file _ _ Hpar), (wf_under_file _ _ Hwf Hpar). }
  split.
  - intros Hl. destruct (Hpre _ Hl) as (Hmk & Ha & Hu & Hpar).
    unfold bind. rewrite Hmk. unfold write_text. change (fs w0) with (fs w).
    now rewrite Ha, Hu, Hpar, Hl.
  - intros mode old Hl Hw. destruct (Hpre _ Hl) as (Hmk & Ha & Hu & Hpar).
    unfold bind. rewrite Hmk. unfold write_text. change (fs w0) with (fs w).
    now rewrite Ha, Hu, Hpar, Hl, Hw.
Qed.

Lemma read_only_output_world_wf : wf (fs read_only_output_world).
Proof.
  unfold read_only_output_world. cbn [fs].
  apply wf_insert; [| reflexivity | vm_compute; reflexivity | left; vm_compute; reflexivity].
  apply wf_insert; [| reflexivity | vm_compute; reflexivity | left; vm_compute; reflexivity].
  apply wf_insert; [| reflexivity | reflexivity | left; vm_compute; reflexivity].
  apply demo_world_wf.
Qed.

Lemma render_unwritable_output_witness :
  wf (fs read_only_output_world)
  /\ fs read_only_output_world !! Path output_name
     = Some (File {| readable := true; writable := false |} (ustr "old"))
  /\ render demo_rt script_env template_name demo_ctx output_name read_only_output_world
     = (Raise PermissionError,
        emit read_only_output_world (CalledRender template_name demo_ctx output_name)).
Proof.
  assert (fs read_only_output_world !! Path output_name
          = Some (File {| readable := true; writable := false |} (ustr "old"))) as Hl
    by (vm_compute; reflexivity).
  split_and!; [exact read_only_output_world_wf | exact Hl |].
  exact (proj2 (render_unwritable_output demo_rt script_env template_name demo_ctx
                  output_name read_only_output_world
                  [TemplateData (ustr "package "); Output (Name (ustr "java_package"));
                   TemplateData (ustr ";")]
                  (ustr "package com.braintrust.semconv;") read_only_output_world_wf
                  ltac:(vm_compute; reflexivity) ltac:(vm_compute; reflexivity))
          _ _ Hl eq_refl).
Defined.

(** ** Runs of the whole script *)

(** X13: if the option parser exits, or the text of the specification
    file is not a YAML document, the script raises that same exception with
    the world as it was: [render] is not entered and nothing is made or
    written. *)
Theorem main_stops_before_render (rt : Runtime) (argv : list str) (w : world) (e : exn) :
  argparse_spec rt (ustr "sdk-spec.yaml") argv = Raise e
  \/ (exists spec text,
        argparse_spec rt (ustr "sdk-spec.yaml") argv = Ok spec
        /\ (read_text (Path spec) w).1 = Ok text
        /\ yaml_safe_load rt text = Raise e) ->
  main rt argv w = (Raise e, w).
Proof.
  intros [Ha | (spec & text & Ha & Hr & Hy)]; rewrite main_eq, Ha; [reflexivity|].
  now rewrite Hr, Hy.
Qed.

Lemma main_stops_before_render_witness :
  yaml_safe_load demo_rt (ustr "name: [") = Raise YAMLError
  /\ main demo_rt [] malformed_world = (Raise YAMLError, malformed_world).
Proof.
  split; [reflexivity|].
  apply (main_stops_before_render demo_rt [] malformed_world YAMLError).
  right. exists (ustr "sdk-spec.yaml"), (ustr "name: [").
  split_and!; [reflexivity | vm_compute; reflexivity | reflexivity].
Defined.

(** X14: with the specification loaded but no regular file
    [SdkSpec.java.j2] in the working directory, the script enters [render]
    and raises TemplateNotFound; nothing is made or written. *)
Theorem main_template_missing (rt : Runtime) (argv : list str) (w : world)
    (spec text : str) (raw : value) :
  argparse_spec rt (ustr "sdk-spec.yaml") argv = Ok spec ->
  (read_text (Path spec) w).1 = Ok text ->
  yaml_safe_load rt text = Ok raw ->
  is_file (fs w) template_path = false ->
  main rt argv w
  = (Raise TemplateNotFound,
     emit w (CalledRender template_name (script_ctx raw spec) output_name)).
Proof.
  intros Ha Hr Hy Hf. rewrite main_eq, Ha, Hr, Hy.
  unfold render, bind. unfold get_template, bind, lift.
  destruct script_template_file as (-> & -> & _).
  cbn [fs emit]. now rewrite Hf.
Qed.

Lemma main_template_missing_witness :
  is_file (fs no_template_world) template_path = false
  /\ main demo_rt [] no_template_world
     = (Raise TemplateNotFound,
        emit no_template_world (CalledRender template_name demo_ctx output_name)).
Proof.
  assert (is_file (fs no_template_world) template_path = false) as Hf
    by (vm_compute; reflexivity).
  split; [exact Hf|].
  apply (main_template_missing demo_rt [] no_template_world (ustr "sdk-spec.yaml")
           (ustr "name: semantic-conv.name")
           (VDict [(VStr (ustr "name"), VStr (ustr "semantic-conv.name"))]));
    [reflexivity | vm_compute; reflexivity | reflexivity | exact Hf].
Defined.

(** What [render] returns when nothing is in the way. *)
Lemma render_ok (rt : Runtime) (env : Environment) (tpl : str)
    (ctx : gmap str value) (out : str) (w : world) (t : list node) (text : str) :
  wf (fs w) ->
  (get_template rt env tpl w).1 = Ok t ->
  template_render rt env t ctx = Ok text ->
  is_anchor (Path out) = false ->
  under_file (fs w) (Path out) = false ->
  (fs w !! Path out = None
   \/ exists mode old, fs w !! Path out = Some (File mode old) /\ writable mode = true) ->
  exists w',
    render rt env tpl ctx out w = (Ok tt, w')
    /\ file_data (fs w') (Path out) = Some text.
Proof.
  intros Hwf Ht Hr Ha Hu Hold.
  rewrite (render_after_rendering rt env tpl ctx out w t text Ht Hr).
  set (w0 := emit w (CalledRender tpl ctx out)).
  destruct (Path out) as [|x q] eqn:Hp; [discriminate Ha|].
  rewrite parent_cons by exact Ha.
  cbn [under_file] in Hu. apply orb_false_iff in Hu as [Hfq Huq].
  destruct (mkdir_parents_spec q w0) as (dirs & Hmk & Hall & Hwf1 & Hdq); auto.
  change (fs w0) with (fs w) in *.
  assert (List.Forall (fun d => fs w !! d = None) dirs) as Habs.
  { eapply List.Forall_impl; [|exact Hall]. cbn beta. tauto. }
  assert (add_dirs dirs (fs w) !! (x :: q) = fs w !! (x :: q)) as Hsame.
  { rewrite lookup_add_dirs. destruct (decide ((x :: q) ∈ dirs)) as [Hin|]; [|reflexivity].
    apply list_elem_of_In in Hin.
    destruct (proj1 (List.Forall_forall _ _) Hall _ Hin) as [_ Hanc].
    apply (ancestors_shorter (x :: q)) in Hanc. lia. }
  unfold bind. rewrite Hmk.
  match goal with |- context [write_text _ _ ?w1] =>
    destruct (write_text_spec (x :: q) text w1) as (mode & Hwr) end.
  { exact Ha. }
  { cbn [fs under_file]. rewrite (is_dir_not_file _ _ Hdq).
    now rewrite (wf_under_file _ _ Hwf1 Hdq). }
  { rewrite parent_cons by exact Ha. exact Hdq. }
  { cbn [fs]. rewrite Hsame. exact Hold. }
  rewrite Hwr. eexists. split; [reflexivity|].
  cbn [fs]. unfold file_data. now rewrite lookup_insert_eq, Ha.
Qed.

(** X15: the whole run.  In a tree where the specification file can be
    read and parsed, the template file read, compiled and rendered, no
    regular file stands above [out/java/SdkSpec.java] and that path is free
    or holds a writable file, the script returns and the file holds the
    rendering of the template in the context of the document. *)
Theorem main_writes_rendering (rt : Runtime) (argv : list str) (w : world)
    (spec text source out_text : str) (raw : value) (mode : perm) (t : list node) :
  wf (fs w) ->
  argparse_spec rt (ustr "sdk-spec.yaml") argv = Ok spec ->
  (read_text (Path spec) w).1 = Ok text ->
  yaml_safe_load rt text = Ok raw ->
  fs w !! template_path = Some (File mode source) ->
  readable mode = true ->
  jinja_compile rt true true source = Ok t ->
  template_render rt script_env t (script_ctx raw spec) = Ok out_text ->
  under_file (fs w) output_path = false ->
  (fs w !! output_path = None
   \/ exists m old, fs w !! output_path = Some (File m old) /\ writable m = true) ->
  exists w',
    main rt argv w = (Ok tt, w')
    /\ file_data (fs w') output_path = Some out_text.
Proof.
  intros Hwf Ha Hr Hy Hl Hrd Hc Hrender Hu Hold.
  rewrite main_eq, Ha, Hr, Hy.
  destruct script_template_file as (Hsplit & Hfile & Hpath).
  assert ((get_template rt script_env template_name w).1 = Ok t) as Ht.
  { unfold get_template, bind, lift. rewrite Hsplit, Hfile.
    unfold is_file, read_text. rewrite Hl. cbn [is_anchor]. 
    change (is_anchor template_path) with false. cbn [negb andb].
    rewrite Hrd. cbn [fst trim_blocks lstrip_blocks script_env set_global new_Environment].
    exact Hc. }
  destruct (render_ok rt script_env template_name (script_ctx raw spec) output_name w
              t out_text Hwf Ht Hrender) as (w' & Hrun & Hdata);
    rewrite ?Hpath; auto.
  exists w'. split; [exact Hrun|]. now rewrite Hpath in Hdata.
Qed.

Lemma main_writes_rendering_witness :
  wf (fs package_world)
  /\ under_file (fs package_world) output_path = false
  /\ fs package_world !! output_path = None
  /\ exists w',
       main demo_rt [] package_world = (Ok tt, w')
       /\ file_data (fs w') output_path = Some (ustr "package com.braintrust.semconv;").
Proof.
  assert (under_file (fs package_world) output_path = false) as Hu
    by (vm_compute; reflexivity).
  assert (fs package_world !! output_path = None) as Hn by (vm_compute; reflexivity).
  split_and!; [apply demo_world_wf | exact Hu | exact Hn |].
  apply (main_writes_rendering demo_rt [] package_world (ustr "sdk-spec.yaml")
           (ustr "name: semantic-conv.name") (ustr "package {{ java_package }};")
           (ustr "package com.braintrust.semconv;")
           (VDict [(VStr (ustr "name"), VStr (ustr "semantic-conv.name"))])
           default_perm
           [TemplateData (ustr "package "); Output (Name (ustr "java_package"));
            TemplateData (ustr ";")]);
    [apply demo_world_wf | reflexivity | vm_compute; reflexivity | reflexivity
    | vm_compute; reflexivity | reflexivity | reflexivity | vm_compute; reflexivity
    | exact Hu | left; exact Hn].
Defined.

(** ** The helper in templates *)

(** X16: under the environment of the script a template reaches the
    helper by the name [java_const]: [{{ java_const(x) }}] renders as
    [java_const] of the string the context holds for [x]; it raises
    TypeError when the context holds bytes there, whose [upper] gives bytes
    that [replace] cannot search for a string, and AttributeError when it
    holds anything else, such as [None] for an empty document. *)
Theorem template_calls_java_const (rt : Runtime) (ctx : gmap str value)
    (x : str) (v : value) :
  ctx !! ustr "java_const" = None ->
  ctx !! x = Some v ->
  template_render rt script_env [Output (Call (Name (ustr "java_const")) [Name x])] ctx
  = match v with
    | VStr s => Ok (java_const (unicode_upper rt) s)
    | VBytes _ => Raise TypeError
    | _ => Raise AttributeError
    end.
Proof.
  intros Hj Hx. unfold template_render.
  cbn [render_nodes render_node eval result_bind]. unfold resolve.
  rewrite (new_context_helper ctx Hj), (new_context_var script_env ctx x v Hx).
  cbn [result_bind call call_java_const].
  destruct v; cbn; try reflexivity. now rewrite app_nil_r.
Qed.

Lemma template_calls_java_const_witness :
  demo_ctx !! ustr "java_const" = None
  /\ demo_ctx !! ustr "java_package" = Some (VStr java_package)
  /\ template_render demo_rt script_env
       [Output (Call (Name (ustr "java_const")) [Name (ustr "java_package")])] demo_ctx
     = Ok (ustr "COM_BRAINTRUST_SEMCONV").
Proof.
  assert (demo_ctx !! ustr "java_const" = None) as Hj by (vm_compute; reflexivity).
  assert (demo_ctx !! ustr "java_package" = Some (VStr java_package)) as Hx
    by (vm_compute; reflexivity).
  split_and!; [exact Hj | exact Hx |].
  exact (template_calls_java_const demo_rt demo_ctx (ustr "java_package")
           (VStr java_package) Hj Hx).
Defined.

(** ** Running the script again *)






